(** * Sentinel test backend: [backend_server.py]

    A shallow embedding of the echo backend used to exercise the Sentinel
    reverse proxy, and the properties of its request handlers, of its server
    start-up and of its command line.

    The program is Python on top of [http.server]; the handlers
    [do_GET], [do_POST], [log_message], the function [run_backend] and the
    [__main__] block are transcribed from the source.  What they call in the
    interpreter and its library ([int], [str], [json.dumps], [str.encode],
    the header lookup, the buffered read of the request body, the
    parsing of the request line, the guard on HTTP/0.9, the socket bind)
    is modelled next to them, each with the behaviour it has on the
    values this program hands to it, for CPython 3.11 on a 64-bit
    build.

    Strings hold characters below 256.  That is all a request line or a
    header can hold, which the library decodes as Latin-1; a backend
    name with wider characters is outside the model. *)

From Stdlib Require Import String Ascii ZArith NArith List Bool Lia.
From Stdlib Require Import Decimal DecimalString DecimalPos DecimalZ.
Import ListNotations.

Local Open Scope string_scope.
Local Open Scope Z_scope.

(** ** Characters *)

Definition dquote : ascii := "034"%char.
Definition backslash : ascii := "092"%char.
Definition CR : ascii := "013"%char.
Definition LF : ascii := "010"%char.

Definition code (c : ascii) : N := N_of_ascii c.

(** The characters [int] skips around a number: the C-locale blanks
    (tab, LF, VT, FF, CR, space) and, in a text that is not pure ASCII,
    the two Latin-1 blanks NEL (0x85) and NBSP (0xA0), which the
    interpreter turns into spaces before it parses. *)
Definition is_space (c : ascii) : bool :=
  let n := code c in
  ((9 <=? n) && (n <=? 13) || (n =? 32) || (n =? 133) || (n =? 160))%N.

Definition digit_val (c : ascii) : option Z :=
  let n := code c in
  if ((48 <=? n) && (n <=? 57))%N then Some (Z.of_N n - 48) else None.

Definition is_digit (c : ascii) : bool :=
  match digit_val c with Some _ => true | None => false end.

(** [str.lower] on one character below 256: the ASCII capitals, and
    the accented Latin-1 capitals (0xC0 to 0xDE, the sign 0xD7 apart). *)
Definition lower_char (c : ascii) : ascii :=
  let n := code c in
  if ((65 <=? n) && (n <=? 90)
      || (192 <=? n) && (n <=? 222) && negb (n =? 215))%N
  then ascii_of_N (n + 32) else c.

Fixpoint lower (s : string) : string :=
  match s with
  | EmptyString => EmptyString
  | String c r => String (lower_char c) (lower r)
  end.

(** ** [int] and [str] *)

Inductive exn : Type :=
| ValueError
| OverflowError
| MemoryError
| OSError.

Fixpoint all_space (s : string) : bool :=
  match s with
  | EmptyString => true
  | String c r => is_space c && all_space r
  end.

Fixpoint lstrip (s : string) : string :=
  match s with
  | EmptyString => EmptyString
  | String c r => if is_space c then lstrip r else s
  end.

(** The digits of a decimal literal after its first digit: a single
    underscore may separate two digits; blanks may follow the last digit
    and nothing else may. *)
Fixpoint scan_digits (acc : Z) (s : string) : option Z :=
  match s with
  | EmptyString => Some acc
  | String c r =>
      match digit_val c with
      | Some d => scan_digits (10 * acc + d) r
      | None =>
          if Ascii.eqb c "_"%char then
            match r with
            | String c' r' =>
                match digit_val c' with
                | Some d => scan_digits (10 * acc + d) r'
                | None => None
                end
            | EmptyString => None
            end
          else if all_space s then Some acc else None
      end
  end.

Definition parse_unsigned (s : string) : option Z :=
  match s with
  | String c r =>
      match digit_val c with
      | Some d => scan_digits d r
      | None => None
      end
  | EmptyString => None
  end.

(** The value of a decimal literal with its sign and the blanks around
    it, whatever the number of its digits. *)
Definition int_literal (s : string) : option Z :=
  match lstrip s with
  | String c r =>
      if Ascii.eqb c "-"%char then option_map Z.opp (parse_unsigned r)
      else if Ascii.eqb c "+"%char then parse_unsigned r
      else parse_unsigned (String c r)
  | EmptyString => None
  end.

(** The digits of a literal, leading zeros included; underscores, the
    sign and blanks do not count. *)
Fixpoint count_digits (s : string) : Z :=
  match s with
  | EmptyString => 0
  | String c r => (if is_digit c then 1 else 0) + count_digits r
  end.

(** [sys.int_info.default_max_str_digits]. *)
Definition max_str_digits : Z := 4300.

(** [int(s)] for a string [s], base 10; [None] stands for [ValueError],
    which is also what a literal of more than [max_str_digits] digits
    gets (the limit on the conversion between [int] and [str]). *)
Definition int_of_str (s : string) : option Z :=
  match int_literal s with
  | Some z => if max_str_digits <? count_digits s then None else Some z
  | None => None
  end.

(** What [headers.get('Content-Length', 0)] can hand to [int]: a header
    value (a string) or the default, the integer [0]. *)
Inductive str_or_int : Type :=
| Str (s : string)
| Int (z : Z).

Definition py_int (x : str_or_int) : exn + Z :=
  match x with
  | Int z => inr z
  | Str s =>
      match int_of_str s with
      | Some z => inr z
      | None => inl ValueError
      end
  end.

(** [str(z)] for an integer.  The program prints the integers [int]
    gave it, a port of the socket and the status 200: all of them have
    at most [max_str_digits] digits, and [str] has no other limit. *)
Definition py_str (z : Z) : string := NilZero.string_of_int (Z.to_int z).

(** ** Values of the response and [json.dumps] *)

Definition is_number_char (c : ascii) : bool :=
  is_digit c || Ascii.eqb c "-"%char || Ascii.eqb c "+"%char
  || Ascii.eqb c "."%char || Ascii.eqb c "e"%char || Ascii.eqb c "E"%char.

Definition is_int_char (c : ascii) : bool :=
  is_digit c || Ascii.eqb c "-"%char.

Fixpoint forallb_string (p : ascii -> bool) (s : string) : bool :=
  match s with
  | EmptyString => true
  | String c r => p c && forallb_string p r
  end.

(** The text of a finite float as [repr] prints it ([1762214400.25],
    [1e+16], [-0.0]): number characters, with a point or an exponent. *)
Definition float_literal (s : string) : bool :=
  forallb_string is_number_char s && negb (forallb_string is_int_char s).

(** A Python float.  The program only prints the clock reading it gets
    from [time.time()], so a float is kept as the literal [repr] gives
    it, the shortest one that reads back as the same double. *)
Record pyfloat : Type := mkfloat {
  float_repr : string;
  float_repr_ok : float_literal float_repr = true
}.

Inductive pyobj : Type :=
| PyStr (s : string)
| PyInt (z : Z)
| PyFloat (f : pyfloat).

(** A dict with string keys, in insertion order (the order of the
    literal that builds it). *)
Definition dict : Type := list (string * pyobj).

Definition hex_digit (n : N) : ascii :=
  (if n <? 10 then ascii_of_N (48 + n) else ascii_of_N (87 + n))%N.

(** One character of a string literal written with [ensure_ascii]:
    the short escapes, the character itself from space to tilde, and
    [\u00xy] for the rest. *)
Definition escape_char (c : ascii) : string :=
  let n := code c in
  if Ascii.eqb c dquote then String backslash (String dquote EmptyString)
  else if Ascii.eqb c backslash then String backslash (String backslash EmptyString)
  else if (n =? 10)%N then String backslash "n"
  else if (n =? 13)%N then String backslash "r"
  else if (n =? 9)%N then String backslash "t"
  else if (n =? 8)%N then String backslash "b"
  else if (n =? 12)%N then String backslash "f"
  else if ((32 <=? n) && (n <=? 126))%N then String c EmptyString
  else String backslash
         (String "u" (String "0" (String "0"
            (String (hex_digit (n / 16)) (String (hex_digit (n mod 16)) EmptyString))))).

Fixpoint escape (s : string) : string :=
  match s with
  | EmptyString => EmptyString
  | String c r => escape_char c ++ escape r
  end.

Definition encode_basestring_ascii (s : string) : string :=
  String dquote (escape s ++ String dquote EmptyString).

Definition dump_value (v : pyobj) : string :=
  match v with
  | PyStr s => encode_basestring_ascii s
  | PyInt z => py_str z
  | PyFloat f => float_repr f
  end.

Definition dump_item (kv : string * pyobj) : string :=
  encode_basestring_ascii (fst kv) ++ ": " ++ dump_value (snd kv).

Fixpoint dump_items (d : dict) : string :=
  match d with
  | [] => EmptyString
  | [kv] => dump_item kv
  | kv :: rest => dump_item kv ++ ", " ++ dump_items rest
  end.

(** [json.dumps(d)] with the default separators and [ensure_ascii]. *)
Definition json_dumps (d : dict) : string := "{" ++ dump_items d ++ "}".

(** [str.encode()]: UTF-8, on text whose characters are below 256. *)
Definition encode_char (c : ascii) : string :=
  let n := code c in
  (if n <? 128 then String c EmptyString
   else String (ascii_of_N (192 + n / 64))
          (String (ascii_of_N (128 + n mod 64)) EmptyString))%N.

Fixpoint encode (s : string) : string :=
  match s with
  | EmptyString => EmptyString
  | String c r => encode_char c ++ encode r
  end.

(** ** Reading a response body back

    What a client of the backend does with the body: [json.loads], here
    for an object whose values are strings and numbers, over Latin-1
    text.  Members are returned in the order they are written.  The
    reader stands for any JSON client: it reads an integer of any number
    of digits. *)

Inductive jvalue : Type :=
| JString (s : string)
| JInt (z : Z)
| JFloat (literal : string).

Definition is_ws (c : ascii) : bool :=
  let n := code c in ((n =? 32) || (n =? 9) || (n =? 10) || (n =? 13))%N.

Fixpoint skip_ws (s : string) : string :=
  match s with
  | EmptyString => EmptyString
  | String c r => if is_ws c then skip_ws r else s
  end.

Definition hex_val (c : ascii) : option N :=
  let n := code c in
  (if (48 <=? n) && (n <=? 57) then Some (n - 48)
   else if (97 <=? n) && (n <=? 102) then Some (n - 87)
   else if (65 <=? n) && (n <=? 70) then Some (n - 55)
   else None)%N.

Definition hex4 (a b c d : ascii) : option N :=
  match hex_val a, hex_val b, hex_val c, hex_val d with
  | Some x, Some y, Some z, Some w => Some (((x * 16 + y) * 16 + z) * 16 + w)%N
  | _, _, _, _ => None
  end.

Definition simple_escape (e : ascii) : option ascii :=
  if Ascii.eqb e dquote then Some dquote
  else if Ascii.eqb e backslash then Some backslash
  else if Ascii.eqb e "/"%char then Some "/"%char
  else if Ascii.eqb e "n"%char then Some LF
  else if Ascii.eqb e "r"%char then Some CR
  else if Ascii.eqb e "t"%char then Some "009"%char
  else if Ascii.eqb e "b"%char then Some "008"%char
  else if Ascii.eqb e "f"%char then Some "012"%char
  else None.

Definition push (c : ascii) (r : option (string * string)) : option (string * string) :=
  match r with
  | Some (s, rest) => Some (String c s, rest)
  | None => None
  end.

(** The text of a string literal after its opening quote: the decoded
    string and what follows the closing quote. *)
Fixpoint read_string (s : string) : option (string * string) :=
  match s with
  | EmptyString => None
  | String c r =>
      if Ascii.eqb c dquote then Some (EmptyString, r)
      else if Ascii.eqb c backslash then
        match r with
        | EmptyString => None
        | String e r1 =>
            if Ascii.eqb e "u"%char then
              match r1 with
              | String h1 (String h2 (String h3 (String h4 r2))) =>
                  match hex4 h1 h2 h3 h4 with
                  | Some n =>
                      if (n <? 256)%N then push (ascii_of_N n) (read_string r2)
                      else None
                  | None => None
                  end
              | _ => None
              end
            else
              match simple_escape e with
              | Some c' => push c' (read_string r1)
              | None => None
              end
        end
      else if (code c <? 32)%N then None
      else push c (read_string r)
  end.

Fixpoint span_number (s : string) : string * string :=
  match s with
  | EmptyString => (EmptyString, EmptyString)
  | String c r =>
      if is_number_char c
      then let (lit, rest) := span_number r in (String c lit, rest)
      else (EmptyString, s)
  end.

Definition classify_number (lit : string) : option jvalue :=
  match lit with
  | EmptyString => None
  | _ =>
      if forallb_string is_int_char lit then
        match int_literal lit with
        | Some z => if String.eqb (py_str z) lit then Some (JInt z) else None
        | None => None
        end
      else Some (JFloat lit)
  end.

Definition read_value (s : string) : option (jvalue * string) :=
  match s with
  | EmptyString => None
  | String c r =>
      if Ascii.eqb c dquote then
        match read_string r with
        | Some (v, rest) => Some (JString v, rest)
        | None => None
        end
      else
        let (lit, rest) := span_number s in
        match classify_number lit with
        | Some v => Some (v, rest)
        | None => None
        end
  end.

(** The members of an object from its first key to its closing brace. *)
Fixpoint read_members (fuel : nat) (s : string) : option (list (string * jvalue) * string) :=
  match fuel with
  | O => None
  | S fuel' =>
      match s with
      | String q r =>
          if Ascii.eqb q dquote then
            match read_string r with
            | Some (k, r1) =>
                match skip_ws r1 with
                | String colon r2 =>
                    if Ascii.eqb colon ":"%char then
                      match read_value (skip_ws r2) with
                      | Some (v, r3) =>
                          match skip_ws r3 with
                          | String sep r4 =>
                              if Ascii.eqb sep "}"%char then Some ([(k, v)], r4)
                              else if Ascii.eqb sep ","%char then
                                match read_members fuel' (skip_ws r4) with
                                | Some (m, r5) => Some ((k, v) :: m, r5)
                                | None => None
                                end
                              else None
                          | EmptyString => None
                          end
                      | None => None
                      end
                    else None
                | EmptyString => None
                end
            | None => None
            end
          else None
      | EmptyString => None
      end
  end.

Definition json_loads (s : string) : option (list (string * jvalue)) :=
  match skip_ws s with
  | String b r =>
      if Ascii.eqb b "{"%char then
        match skip_ws r with
        | String c r' =>
            if Ascii.eqb c "}"%char then
              match skip_ws r' with EmptyString => Some [] | _ => None end
            else
              match read_members (String.length s) (String c r') with
              | Some (m, rest) =>
                  match skip_ws rest with EmptyString => Some m | _ => None end
              | None => None
              end
        | EmptyString => None
        end
      else None
  | EmptyString => None
  end.

(** The value under a key of a loaded object; of two members with one
    key the later one counts, as in the dict [json.loads] builds. *)
Fixpoint jget (k : string) (m : list (string * jvalue)) : option jvalue :=
  match m with
  | [] => None
  | (k', v) :: rest =>
      match jget k rest with
      | Some w => Some w
      | None => if String.eqb k' k then Some v else None
      end
  end.

Definition to_jvalue (v : pyobj) : jvalue :=
  match v with
  | PyStr s => JString s
  | PyInt z => JInt z
  | PyFloat f => JFloat (float_repr f)
  end.

Definition to_json (d : dict) : list (string * jvalue) :=
  map (fun kv => (fst kv, to_jvalue (snd kv))) d.

(** ** The request handler and its environment *)

Inductive method : Type := GET | POST.

Fixpoint take (n : nat) (s : string) : string :=
  match n, s with
  | S n', String c r => String c (take n' r)
  | _, _ => EmptyString
  end.

Fixpoint drop (n : nat) (s : string) : string :=
  match n, s with
  | S n', String _ r => drop n' r
  | _, _ => s
  end.

(** The integers that fit an index ([Py_ssize_t]) of a 64-bit build,
    from -2^63 to 2^63 - 1, and the largest size of a [bytes] object
    there: [sys.maxsize] less the 33 bytes of the object's header. *)
Definition min_index : Z := -9223372036854775808.
Definition max_index : Z := 9223372036854775807.
Definition max_bytes : Z := 9223372036854775774.

Definition fits (bytes : string) (room : Z) : bool :=
  (Z.of_nat (String.length bytes) <=? room) && (room <=? max_bytes).

(** The request body as the buffered reader [rfile] sees it: the bytes
    the client sends on the connection after the headers, how many of
    them have been read, whether the client closes its sending side
    after them, and [room], the size of the largest [bytes] object the
    interpreter can allocate while the handler runs.  The model covers
    the bodies a [bytes] object can hold: what the client sends is no
    longer than [room], and [room] is at most [max_bytes]. *)
Record stream : Type := mkstream {
  sent : string;
  position : nat;
  closed : bool;
  room : Z;
  sent_fits : fits sent room = true
}.

(** The bytes still to be read. *)
Definition incoming (s : stream) : string := drop (position s) (sent s).

(** What [parse_request] leaves on the handler for a request line it
    accepts: the method, the path, the request line as it was sent less
    its line end, the headers, and the stream behind the headers. *)
Record request : Type := mkrequest {
  command : method;
  path : string;
  requestline : string;
  headers : list (string * string);
  rfile : stream
}.

Record HTTPServer : Type := mkserver {
  server_address : string * Z;
  server_port : Z;
  backend_name : string
}.

(** What a handler reads off the interpreter while it runs. *)
Record env : Type := mkenv {
  time_time : pyfloat;
  version_string : string;
  date_time_string : string
}.

(** The handler object: [request_version] is the version the request
    line names, and [HTTP/0.9] for a request line without one. *)
Record self : Type := mkself {
  server : HTTPServer;
  req : request;
  request_version : string;
  environ : env
}.

(** What goes out on the connection. *)
Inductive wire : Type :=
| StatusLine (code : Z) (message : string)
| HeaderLine (keyword value : string)
| EndOfHeaders
| Data (bytes : string).

Record hstate : Type := mkstate {
  st_rfile : stream;
  headers_buffer : list wire;
  wfile : list wire;
  stdout : list string
}.

(** A handler returns, raises, or waits on a read that never returns. *)
Inductive result (A : Type) : Type :=
| Returned (a : A) (st : hstate)
| Raised (e : exn) (st : hstate)
| Blocked (st : hstate).

Arguments Returned {A} a st.
Arguments Raised {A} e st.
Arguments Blocked {A} st.

Definition handler (A : Type) : Type := self -> hstate -> result A.

Definition ret {A : Type} (a : A) : handler A := fun _ st => Returned a st.

Definition bind {A B : Type} (m : handler A) (k : A -> handler B) : handler B :=
  fun slf st =>
    match m slf st with
    | Returned a st' => k a slf st'
    | Raised e st' => Raised e st'
    | Blocked st' => Blocked st'
    end.

Notation "x <- m ;; k" := (bind m (fun x => k))
  (at level 61, m at next level, right associativity).
Notation "m ;; k" := (bind m (fun _ => k))
  (at level 61, right associativity).

Definition ask {A : Type} (f : self -> A) : handler A :=
  fun slf st => Returned (f slf) st.

Definition lift {A : Type} (r : exn + A) : handler A :=
  fun _ st => match r with inr a => Returned a st | inl e => Raised e st end.

(** [headers.get(name, failobj)]: the value of the first header whose
    name is [name] whatever the case of its letters, else [failobj]. *)
Fixpoint headers_get (hs : list (string * string)) (name : string)
    (failobj : str_or_int) : str_or_int :=
  match hs with
  | [] => failobj
  | (k, v) :: r =>
      if String.eqb (lower k) (lower name) then Str v
      else headers_get r name failobj
  end.

(** How a call [rfile.read(size)] ends. *)
Inductive reading : Type :=
| Reads (count : nat)
| Refuses (e : exn)
| Waits.

(** [rfile] is the [io.BufferedReader] that [socketserver] makes of the
    connection.  A size that is no index is refused with
    [OverflowError]; a size below [-1] with [ValueError] (read length
    must be non-negative or -1); [-1] reads to the end of the stream.
    For any other size the reader first allocates a [bytes] object of
    that size, which fails with [OverflowError] above [max_bytes] and
    with [MemoryError] above [room]; then the call returns once [size]
    bytes are there, or fewer when the stream ends first, and waits as
    long as neither is the case. *)
Definition read_outcome (size : Z) (s : stream) : reading :=
  let avail := String.length (incoming s) in
  if (size <? min_index) || (max_index <? size) then Refuses OverflowError
  else if size <? -1 then Refuses ValueError
  else if size =? -1 then
    if closed s then Reads avail else Waits
  else if max_bytes <? size then Refuses OverflowError
  else if room s <? size then Refuses MemoryError
  else if size <=? Z.of_nat avail then Reads (Z.to_nat size)
  else if closed s then Reads avail
  else Waits.

(** The stream after [count] more bytes were read. *)
Definition advance (count : nat) (s : stream) : stream :=
  mkstream (sent s) (position s + count) (closed s) (room s) (sent_fits s).

(** [rfile.read(size)]. *)
Definition rfile_read (size : Z) : handler string :=
  fun _ st =>
    let s := st_rfile st in
    match read_outcome size s with
    | Reads count =>
        Returned (take count (incoming s))
          (mkstate (advance count s) (headers_buffer st) (wfile st) (stdout st))
    | Refuses e => Raised e st
    | Waits => Blocked st
    end.

Definition stdout_write (s : string) : handler unit :=
  fun _ st =>
    Returned tt (mkstate (st_rfile st) (headers_buffer st) (wfile st) (stdout st ++ [s])).

Definition nl : string := String LF EmptyString.

(** The override of the source:
    [sys.stdout.write(f"[{self.server.backend_name}] {format % args}\n")],
    with [message] for [format % args]. *)
Definition log_message (message : string) : handler unit :=
  name <- ask (fun slf => backend_name (server slf)) ;;
  stdout_write ("[" ++ name ++ "] " ++ message ++ nl).

(** [log_request(code)] of the library: the request line between
    quotes, the code, and a dash for the size it is not given. *)
Definition log_request (code : Z) : handler unit :=
  line <- ask (fun slf => requestline (req slf)) ;;
  log_message (String dquote line ++ String dquote (" " ++ py_str code ++ " -")).

Definition buffer_header (w : wire) : handler unit :=
  fun _ st =>
    Returned tt (mkstate (st_rfile st) (headers_buffer st ++ [w]) (wfile st) (stdout st)).

(** The guard of the library around everything it writes before the
    body: [if self.request_version != 'HTTP/0.9': ...].  A request
    without a version is answered with the body alone. *)
Definition unless_simple (m : handler unit) : handler unit :=
  version <- ask request_version ;;
  (if String.eqb version "HTTP/0.9" then ret tt else m).

Definition reason_phrase (code : Z) : string :=
  if code =? 200 then "OK" else EmptyString.

Definition send_response_only (code : Z) : handler unit :=
  unless_simple (buffer_header (StatusLine code (reason_phrase code))).

Definition send_header (keyword value : string) : handler unit :=
  unless_simple (buffer_header (HeaderLine keyword value)).

(** [send_response(code)] of the library: logs the request, then
    buffers the status line and the Server and Date headers. *)
Definition send_response (code : Z) : handler unit :=
  log_request code ;;
  send_response_only code ;;
  v <- ask (fun slf => version_string (environ slf)) ;;
  send_header "Server" v ;;
  d <- ask (fun slf => date_time_string (environ slf)) ;;
  send_header "Date" d.

(** [end_headers()]: what was buffered goes out, closed by the empty
    line. *)
Definition end_headers : handler unit :=
  unless_simple
    (fun _ st =>
       Returned tt
         (mkstate (st_rfile st) []
            (wfile st ++ headers_buffer st ++ [EndOfHeaders]) (stdout st))).

Definition wfile_write (bytes : string) : handler unit :=
  fun _ st =>
    Returned tt (mkstate (st_rfile st) (headers_buffer st) (wfile st ++ [Data bytes]) (stdout st)).

Definition GET_response (srv : HTTPServer) (target : string) (now : pyfloat) : dict :=
  [ ("backend", PyStr (backend_name srv));
    ("port", PyInt (server_port srv));
    ("path", PyStr target);
    ("method", PyStr "GET");
    ("timestamp", PyFloat now) ].

Definition POST_response (srv : HTTPServer) (target : string) (content_length : Z)
    (now : pyfloat) : dict :=
  [ ("backend", PyStr (backend_name srv));
    ("port", PyInt (server_port srv));
    ("path", PyStr target);
    ("method", PyStr "POST");
    ("body_length", PyInt content_length);
    ("timestamp", PyFloat now) ].

(** Handle GET requests. *)
Definition do_GET : handler unit :=
  send_response 200 ;;
  send_header "Content-Type" "application/json" ;;
  end_headers ;;
  srv <- ask server ;;
  target <- ask (fun slf => path (req slf)) ;;
  now <- ask (fun slf => time_time (environ slf)) ;;
  let response := GET_response srv target now in
  wfile_write (encode (json_dumps response)).

(** Handle POST requests. *)
Definition do_POST : handler unit :=
  hs <- ask (fun slf => headers (req slf)) ;;
  content_length <- lift (py_int (headers_get hs "Content-Length" (Int 0))) ;;
  body <- rfile_read content_length ;;
  send_response 200 ;;
  send_header "Content-Type" "application/json" ;;
  end_headers ;;
  srv <- ask server ;;
  target <- ask (fun slf => path (req slf)) ;;
  now <- ask (fun slf => time_time (environ slf)) ;;
  let response := POST_response srv target content_length now in
  wfile_write (encode (json_dumps response)).

(** One connection whose request line gave [version]: the handler of the
    request's method, run on a fresh handler state. *)
Definition handle_version (version : string) (srv : HTTPServer)
    (conn : request * env) : result unit :=
  let (r, e) := conn in
  let h := match command r with GET => do_GET | POST => do_POST end in
  h (mkself srv r version e) (mkstate (rfile r) [] [] []).

(** One connection whose request line names a version.  The handlers and
    what they call only ask whether the version is [HTTP/0.9], so this
    is the run for HTTP/1.0, HTTP/1.1 and every other version a request
    line can name. *)
Definition handle (srv : HTTPServer) (conn : request * env) : result unit :=
  handle_version "HTTP/1.1" srv conn.

Definition final {A : Type} (r : result A) : hstate :=
  match r with
  | Returned _ st => st
  | Raised _ st => st
  | Blocked st => st
  end.

Definition status_code (w : list wire) : option Z :=
  match w with
  | StatusLine c _ :: _ => Some c
  | _ => None
  end.

Fixpoint body_bytes (w : list wire) : string :=
  match w with
  | [] => EmptyString
  | Data b :: r => b ++ body_bytes r
  | _ :: r => body_bytes r
  end.

(** The bytes [rfile.read] took off the stream during a run. *)
Definition bytes_read (before : stream) (after : hstate) : nat :=
  (String.length (incoming before) - String.length (incoming (st_rfile after)))%nat.

(** ** The request line

    What the library does with the first line of a connection before it
    calls [do_GET] or [do_POST]: [parse_request] and [handle_one_request]
    of [http.server].  The line arrives decoded as Latin-1, one
    character for each byte. *)

(** [str.isspace] below 256, which [str.split()] splits at. *)
Definition is_blank (c : ascii) : bool :=
  let n := code c in
  ((9 <=? n) && (n <=? 13) || (28 <=? n) && (n <=? 32) || (n =? 133) || (n =? 160))%N.

(** [s.split()]: the words between runs of blanks. *)
Fixpoint split (s : string) : list string :=
  match s with
  | EmptyString => []
  | String c r =>
      if is_blank c then split r
      else
        match r with
        | EmptyString => [String c EmptyString]
        | String c' _ =>
            if is_blank c' then String c EmptyString :: split r
            else
              match split r with
              | w :: ws => String c w :: ws
              | [] => [String c EmptyString]
              end
        end
  end.

(** [s.split(sep)] for a separator of one character: the pieces
    between its occurrences, empty ones too. *)
Fixpoint split_on (sep : ascii) (s : string) : list string :=
  match s with
  | EmptyString => [EmptyString]
  | String c r =>
      if Ascii.eqb c sep then EmptyString :: split_on sep r
      else
        match split_on sep r with
        | w :: ws => String c w :: ws
        | [] => [String c EmptyString]
        end
  end.

(** [s.rstrip('\r\n')]. *)
Fixpoint rstrip_eol (s : string) : string :=
  match s with
  | EmptyString => EmptyString
  | String c r =>
      match rstrip_eol r with
      | EmptyString =>
          if Ascii.eqb c CR || Ascii.eqb c LF then EmptyString
          else String c EmptyString
      | r' => String c r'
      end
  end.

(** [s.lstrip(ch)] for one character. *)
Fixpoint lstrip_char (ch : ascii) (s : string) : string :=
  match s with
  | EmptyString => EmptyString
  | String c r => if Ascii.eqb c ch then lstrip_char ch r else s
  end.

(** The numbers of a version word: it starts with [HTTP/], and what
    follows is two integers, as [int] reads them, around one point. *)
Definition version_number (version : string) : option (Z * Z) :=
  if String.prefix "HTTP/" version then
    match split_on "."%char (drop 5 version) with
    | [major; minor] =>
        match int_of_str major, int_of_str minor with
        | Some a, Some b => Some (a, b)
        | _, _ => None
        end
    | _ => None
    end
  else None.

(** [if self.path.startswith('//'): self.path = '/' + self.path.lstrip('/')]:
    the slashes a target starts with are reduced to one. *)
Definition single_slash (target : string) : string :=
  if String.prefix "//" target then "/" ++ lstrip_char "/"%char target else target.

Inductive parsed : Type :=
| Accepted (command target version : string)
| Rejected (code : Z)
| Silent.

(** [parse_request] on the first line of the connection: the command,
    the path and the version it leaves on the handler, or the status of
    the error it sends, or nothing for a line without a word.  The
    headers are taken as the library parsed them. *)
Definition parse_request (raw_requestline : string) : parsed :=
  let words := split (rstrip_eol raw_requestline) in
  if (length words =? 0)%nat then Silent
  else
    let checked : Z + string :=
      if (3 <=? length words)%nat then
        let version := last words EmptyString in
        match version_number version with
        | None => inl 400
        | Some (major, minor) =>
            if (2 <? major) || (major =? 2) && (0 <=? minor) then inl 505
            else inr version
        end
      else inr "HTTP/0.9" in
    match checked with
    | inl code => Rejected code
    | inr version =>
        match words with
        | [command; target] =>
            if String.eqb command "GET"
            then Accepted command (single_slash target) version
            else Rejected 400
        | [command; target; _] => Accepted command (single_slash target) version
        | _ => Rejected 400
        end
    end.

(** The methods the handler has a [do_] method for. *)
Definition method_of (command : string) : option method :=
  if String.eqb command "GET" then Some GET
  else if String.eqb command "POST" then Some POST
  else None.

(** How the library deals with one connection: a handler of the source
    runs, or the library answers with an error of its own, or nothing is
    answered. *)
Inductive outcome : Type :=
| Handled (res : result unit)
| Refused (code : Z)
| Dropped.

(** [handle_one_request] of the library, on the first line of the
    connection, the headers and the stream behind them. *)
Definition handle_one_request (srv : HTTPServer) (raw_requestline : string)
    (hs : list (string * string)) (body : stream) (e : env) : outcome :=
  if 65536 <? Z.of_nat (String.length raw_requestline) then Refused 414
  else if (String.length raw_requestline =? 0)%nat then Dropped
  else
    match parse_request raw_requestline with
    | Silent => Dropped
    | Rejected code => Refused code
    | Accepted command target version =>
        match method_of command with
        | None => Refused 501
        | Some m =>
            Handled
              (handle_version version srv
                 (mkrequest m target (rstrip_eol raw_requestline) hs body, e))
        end
    end.

(** ** The server and the command line *)

(** The part of the operating system [bind] depends on: which ports it
    refuses (taken, or reserved), and the port it picks when asked for
    port [0]. *)
Record os : Type := mkos {
  unavailable : Z -> bool;
  ephemeral_port : Z
}.

(** [HTTPServer((host, port), BackendHandler)]: binds the socket and
    keeps the port of [getsockname()] as [server_port]. *)
Definition bind_socket (sys : os) (address : string * Z) : exn + (string * Z) :=
  let (host, port) := address in
  if (port <? 0) || (65535 <? port) then inl OverflowError
  else if port =? 0 then inr (host, ephemeral_port sys)
  else if unavailable sys port then inl OSError
  else inr (host, port).

(** How the process ends: it leaves with a status ([sys.exit(1)], or 0
    after the shutdown), or it dies of an exception nobody caught, which
    the interpreter reports with a traceback. *)
Inductive termination : Type :=
| Exited (status : Z)
| Traceback (e : exn).

Record process : Type := mkprocess {
  printed : list string;
  served : list (result unit);
  started : option HTTPServer;
  exit : termination
}.

Definition print (s : string) : string := s ++ nl.

(** The accept loop over the connections that arrive before the
    interrupt, one at a time.  An exception of a handler is reported by
    the library and the loop goes on.  A handler that waits on its read
    holds the loop, and the connections behind it, until the interrupt
    reaches it there: [KeyboardInterrupt] is no [Exception], so the
    library closes the connection and lets it leave [serve_forever]. *)
Fixpoint serve_forever (srv : HTTPServer) (conns : list (request * env))
    : list (result unit) :=
  match conns with
  | [] => []
  | conn :: rest =>
      match handle srv conn with
      | Blocked st => [Blocked st]
      | r => r :: serve_forever srv rest
      end
  end.

Definition logs (rs : list (result unit)) : list string :=
  flat_map (fun r => stdout (final r)) rs.

(** Run a backend server on the specified port.  The run ends with the
    interrupt: [except KeyboardInterrupt] prints the notice and
    [server.shutdown()] returns at once, the loop being left already. *)
Definition run_backend (sys : os) (port : Z) (name : string)
    (conns : list (request * env)) : process :=
  match bind_socket sys ("localhost", port) with
  | inl e => mkprocess [] [] None (Traceback e)
  | inr bound =>
      let server := mkserver bound (snd bound) name in
      let banner :=
        [ print ("Starting backend server '" ++ name ++ "' on port " ++ py_str port);
          print ("Backend URL: http://localhost:" ++ py_str port);
          print "Press Ctrl+C to stop" ] in
      let rs := serve_forever server conns in
      mkprocess
        (banner ++ logs rs ++ [print (nl ++ "Shutting down backend '" ++ name ++ "'")])
        rs (Some server) (Exited 0)
  end.

(** The [__main__] block, on [sys.argv]. *)
Definition main (sys : os) (argv : list string) (conns : list (request * env)) : process :=
  if (length argv <? 2)%nat then
    mkprocess
      [ print "Usage: python backend_server.py <port> [name]";
        print "Example: python backend_server.py 3000 backend-1" ]
      [] None (Exited 1)
  else
    match py_int (Str (nth 1 argv EmptyString)) with
    | inl e => mkprocess [] [] None (Traceback e)
    | inr port =>
        let name :=
          if (2 <? length argv)%nat then nth 2 argv EmptyString
          else "backend-" ++ py_str port in
        run_backend sys port name conns
    end.

(** ** Predicates the statements use *)

(** The value of a decimal numeral read after the digits that gave [acc]. *)
Fixpoint uint_value (d : uint) (acc : Z) : Z :=
  match d with
  | Nil => acc
  | D0 l => uint_value l (10 * acc + 0)
  | D1 l => uint_value l (10 * acc + 1)
  | D2 l => uint_value l (10 * acc + 2)
  | D3 l => uint_value l (10 * acc + 3)
  | D4 l => uint_value l (10 * acc + 4)
  | D5 l => uint_value l (10 * acc + 5)
  | D6 l => uint_value l (10 * acc + 6)
  | D7 l => uint_value l (10 * acc + 7)
  | D8 l => uint_value l (10 * acc + 8)
  | D9 l => uint_value l (10 * acc + 9)
  end.

(** What may follow a number in the text: the end, or a character that
    cannot continue the number. *)
Definition ends_number (rest : string) : bool :=
  match rest with
  | EmptyString => true
  | String c _ => negb (is_number_char c)
  end.

(** [bytes.decode()]: UTF-8, for text whose characters are below 256;
    [None] when the bytes are not such a text. *)
Fixpoint decode (b : string) : option string :=
  match b with
  | EmptyString => Some EmptyString
  | String c r =>
      let n := code c in
      if (n <? 128)%N then
        match decode r with
        | Some s => Some (String c s)
        | None => None
        end
      else if ((n =? 194) || (n =? 195))%N then
        match r with
        | String c2 r' =>
            let n2 := code c2 in
            if ((128 <=? n2) && (n2 <? 192))%N then
              match decode r' with
              | Some s => Some (String (ascii_of_N ((n - 192) * 64 + (n2 - 128))) s)
              | None => None
              end
            else None
        | EmptyString => None
        end
      else None
  end.

(** What the client has after a run: the status code and the loaded
    body. *)
Definition reply_of (st : hstate) : option (Z * list (string * jvalue)) :=
  match status_code (wfile st), decode (body_bytes (wfile st)) with
  | Some c, Some text =>
      match json_loads text with
      | Some m => Some (c, m)
      | None => None
      end
  | _, _ => None
  end.

(** The loaded body of a response, with or without a status line
    before it. *)
Definition body_of (st : hstate) : option (list (string * jvalue)) :=
  match decode (body_bytes (wfile st)) with
  | Some text => json_loads text
  | None => None
  end.

(** The response both handlers put on the wire around their payload,
    for a request with a version and for one without. *)
Definition response_wire (e : env) (payload : dict) : list wire :=
  [ StatusLine 200 "OK";
    HeaderLine "Server" (version_string e);
    HeaderLine "Date" (date_time_string e);
    HeaderLine "Content-Type" "application/json";
    EndOfHeaders;
    Data (encode (json_dumps payload)) ].

Definition wire_of (version : string) (e : env) (payload : dict) : list wire :=
  if String.eqb version "HTTP/0.9" then [Data (encode (json_dumps payload))]
  else response_wire e payload.

Definition access_log (srv : HTTPServer) (r : request) : string :=
  "[" ++ backend_name srv ++ "] "
      ++ (String dquote (requestline r) ++ String dquote " 200 -") ++ nl.

Definition has_header (hs : list (string * string)) (name : string) : bool :=
  existsb (fun kv => String.eqb (lower (fst kv)) (lower name)) hs.

Definition content_length_of (r : request) : exn + Z :=
  py_int (headers_get (headers r) "Content-Length" (Int 0)).

(** The sizes and streams on which [rfile.read] returns. *)
Definition read_completes (size : Z) (s : stream) : bool :=
  match read_outcome size s with
  | Reads _ => true
  | _ => false
  end.

(** The requests a handler answers. *)
Definition answerable (r : request) : bool :=
  match command r with
  | GET => true
  | POST =>
      match content_length_of r with
      | inr n => read_completes n (rfile r)
      | inl _ => false
      end
  end.

Definition payload_of (srv : HTTPServer) (r : request) (e : env) (n : Z) : dict :=
  match command r with
  | GET => GET_response srv (path r) (time_time e)
  | POST => POST_response srv (path r) n (time_time e)
  end.

Fixpoint contains (needle hay : string) : bool :=
  String.prefix needle hay
  || match hay with
     | String _ r => contains needle r
     | EmptyString => false
     end.

Definition init_state (r : request) : hstate := mkstate (rfile r) [] [] [].

(** The stream [rfile.read(size)] leaves behind. *)
Definition after_read (size : Z) (s : stream) : stream :=
  match read_outcome size s with
  | Reads count => advance count s
  | _ => s
  end.

Definition content_length_value (r : request) : Z :=
  match content_length_of r with
  | inr n => n
  | inl _ => 0
  end.

(** The handler state in which an answered request ends, for a request
    line that gave [version], and for one that names a version. *)
Definition answer_state_of (version : string) (srv : HTTPServer) (r : request)
    (e : env) : hstate :=
  mkstate
    (match command r with
     | GET => rfile r
     | POST => after_read (content_length_value r) (rfile r)
     end)
    []
    (wire_of version e (payload_of srv r e (content_length_value r)))
    [access_log srv r].

Definition answer_state (srv : HTTPServer) (r : request) (e : env) : hstate :=
  mkstate
    (match command r with
     | GET => rfile r
     | POST => after_read (content_length_value r) (rfile r)
     end)
    []
    (response_wire e (payload_of srv r e (content_length_value r)))
    [access_log srv r].

(** How a request that is not answered ends: with the exception of the
    conversion or of the read, or waiting on the read. *)
Definition unanswered (r : request) : result unit :=
  match content_length_of r with
  | inl ex => Raised ex (init_state r)
  | inr n =>
      match read_outcome n (rfile r) with
      | Refuses ex => Raised ex (init_state r)
      | _ => Blocked (init_state r)
      end
  end.

(** ** Sample runs *)

Definition sample_now : pyfloat := mkfloat "1762214400.25" eq_refl.

Definition sample_env : env :=
  mkenv sample_now "BaseHTTP/0.6 Python/3.11.2" "Tue, 03 Nov 2026 23:51:00 GMT".

Definition sample_server : HTTPServer :=
  mkserver ("localhost", 3000) 3000 "backend-1".

Definition sample_os : os := mkos (fun port => port <? 1024) 49152.

(** One mebibyte for a body. *)
Definition sample_room : Z := 1048576.

Definition post (target : string) (hs : list (string * string)) (body : stream) : request :=
  mkrequest POST target ("POST " ++ target ++ " HTTP/1.1") hs body.

Definition get (target : string) : request :=
  mkrequest GET target ("GET " ++ target ++ " HTTP/1.1")
    [("Host", "localhost:3000")] (mkstream EmptyString 0 false sample_room eq_refl).

(** Ten bytes announced, three sent, then the client stops sending. *)
Definition short_post : request :=
  post "/ingest" [("Host", "localhost:3000"); ("Content-Length", "10")]
    (mkstream "hey" 0 true sample_room eq_refl).

Definition malformed_post : request :=
  post "/ingest" [("Host", "localhost:3000"); ("Content-Length", "abc")]
    (mkstream "hello" 0 false sample_room eq_refl).

Definition bare_post : request :=
  post "/ingest" [("Host", "localhost:3000")]
    (mkstream "hello" 0 false sample_room eq_refl).

Definition hello_post : request :=
  post "/ingest" [("Host", "localhost:3000"); ("content-length", "5")]
    (mkstream "hello" 0 false sample_room eq_refl).

Definition negative_post : request :=
  post "/ingest" [("Host", "localhost:3000"); ("Content-Length", "-5")]
    (mkstream "hello" 0 true sample_room eq_refl).

Definition minus_one_post : request :=
  post "/ingest" [("Host", "localhost:3000"); ("Content-Length", "-1")]
    (mkstream "hello" 0 true sample_room eq_refl).

(** A size below every index, and sizes no [bytes] object has room
    for: 2^63 and two mebibytes. *)
Definition far_negative_post : request :=
  post "/ingest"
    [("Host", "localhost:3000"); ("Content-Length", "-18446744073709551616")]
    (mkstream "hello" 0 true sample_room eq_refl).

Definition huge_post : request :=
  post "/ingest"
    [("Host", "localhost:3000"); ("Content-Length", "9223372036854775808")]
    (mkstream "hello" 0 true sample_room eq_refl).

Definition roomy_post : request :=
  post "/ingest" [("Host", "localhost:3000"); ("Content-Length", "2097152")]
    (mkstream "hello" 0 true sample_room eq_refl).

(** A target with a query string, percent escapes, a quote, a backslash,
    a control character and a Latin-1 letter. *)
Definition odd_target : string :=
  "/a%20b/../c?q=1&r=" ++
  String dquote (String backslash (String "007"%char (String "233"%char "/+"))).

Definition sample_conns : list (request * env) :=
  [ (get "/health", sample_env);
    (hello_post, sample_env);
    (malformed_post, sample_env);
    (get odd_target, sample_env) ].

(** A word between double quotes, for writing expected JSON text. *)
Definition quoted (s : string) : string := String dquote (s ++ String dquote EmptyString).

Definition crlf : string := String CR (String LF EmptyString).

(** ** What the further properties speak of *)

Definition is_ascii (c : ascii) : bool := (code c <? 128)%N.


(** The request [r] with another body stream, and with other headers. *)
Definition with_body (r : request) (body : stream) : request :=
  mkrequest (command r) (path r) (requestline r) (headers r) body.

Definition with_headers (r : request) (hs : list (string * string)) : request :=
  mkrequest (command r) (path r) (requestline r) hs (rfile r).

(** The three lines [run_backend] prints once the socket is bound, and
    the line it prints on the interrupt. *)
Definition banner (name : string) (port : Z) : list string :=
  [ print ("Starting backend server '" ++ name ++ "' on port " ++ py_str port);
    print ("Backend URL: http://localhost:" ++ py_str port);
    print "Press Ctrl+C to stop" ].



Definition unbindable (sys : os) (port : Z) : bool :=
  (port <? 0) || (65535 <? port) || (negb (port =? 0) && unavailable sys port).

(** Two Content-Length headers, in capitals first. *)
Definition twice_post : request :=
  post "/ingest"
    [("Host", "localhost:3000"); ("CONTENT-LENGTH", "5"); ("Content-Length", "7")]
    (mkstream "hello, world" 0 false sample_room eq_refl).




(** A string of [n] characters [c]. *)
Fixpoint repeat_char (c : ascii) (n : nat) : string :=
  match n with
  | O => EmptyString
  | S n' => String c (repeat_char c n')
  end.

(** * Properties *)

(** ** The model on sample inputs *)

Example int_of_str_samples :
  map int_of_str ["5"; " 5 "; "+5"; "-5"; "- 5"; "5_0"; "5__0"; "_5"; "5_";
                  EmptyString; "abc"; "0x10"; "5.0"; "005"; "-0"; "+"; "1e3"; "5 5"]
  = [Some 5; Some 5; Some 5; Some (-5); None; Some 50; None; None; None;
     None; None; None; None; Some 5; Some 0; None; None; None].
Proof. reflexivity. Qed.

Example py_str_samples : map py_str [0; 5; 3000; -5] = ["0"; "5"; "3000"; "-5"].
Proof. reflexivity. Qed.

Example get_health_body :
  body_bytes (wfile (final (handle sample_server (get "/health", sample_env))))
  = "{" ++ quoted "backend" ++ ": " ++ quoted "backend-1" ++ ", "
        ++ quoted "port" ++ ": 3000, "
        ++ quoted "path" ++ ": " ++ quoted "/health" ++ ", "
        ++ quoted "method" ++ ": " ++ quoted "GET" ++ ", "
        ++ quoted "timestamp" ++ ": 1762214400.25}".
Proof. reflexivity. Qed.

Example post_hello_body :
  body_bytes (wfile (final (handle sample_server (hello_post, sample_env))))
  = "{" ++ quoted "backend" ++ ": " ++ quoted "backend-1" ++ ", "
        ++ quoted "port" ++ ": 3000, "
        ++ quoted "path" ++ ": " ++ quoted "/ingest" ++ ", "
        ++ quoted "method" ++ ": " ++ quoted "POST" ++ ", "
        ++ quoted "body_length" ++ ": 5, "
        ++ quoted "timestamp" ++ ": 1762214400.25}".
Proof. reflexivity. Qed.

Example get_health_log :
  stdout (final (handle sample_server (get "/health", sample_env)))
  = ["[backend-1] " ++ quoted "GET /health HTTP/1.1" ++ " 200 -" ++ nl].
Proof. reflexivity. Qed.

Example int_of_str_limit :
  int_of_str (repeat_char "1" 4300) <> None
  /\ int_of_str (repeat_char "1" 4301) = None
  /\ int_of_str (repeat_char "0" 4301) = None
  /\ int_of_str ("-" ++ repeat_char "1" 4301) = None.
Proof. vm_compute. repeat split; discriminate. Qed.

Example rfile_read_samples :
  let st := init_state short_post in
  let slf := mkself sample_server short_post "HTTP/1.1" sample_env in
  (rfile_read (-5) slf st, rfile_read 0 slf st, rfile_read 2 slf st, rfile_read 10 slf st)
  = (Raised ValueError st,
     Returned EmptyString st,
     Returned "he" (mkstate (mkstream "hey" 2 true sample_room eq_refl) [] [] []),
     Returned "hey" (mkstate (mkstream "hey" 3 true sample_room eq_refl) [] [] [])).
Proof. reflexivity. Qed.

Example read_outcome_samples :
  map (fun size => read_outcome size (rfile short_post))
    [-18446744073709551616; -9223372036854775809; -9223372036854775808; -5; -1;
     0; 3; 10; 1048576; 1048577; 9223372036854775774; 9223372036854775775;
     9223372036854775808]
  = [Refuses OverflowError; Refuses OverflowError; Refuses ValueError;
     Refuses ValueError; Reads 3;
     Reads 0; Reads 3; Reads 3; Reads 3; Refuses MemoryError; Refuses MemoryError;
     Refuses OverflowError; Refuses OverflowError].
Proof. reflexivity. Qed.

Example parse_request_samples :
  map parse_request
    [ "GET /health HTTP/1.1" ++ crlf; "POST /ingest?x=1 HTTP/1.0" ++ crlf;
      "GET /health" ++ crlf; "POST /ingest" ++ crlf;
      "GET //a//b HTTP/1.1" ++ crlf; "GET /a b HTTP/1.1" ++ crlf;
      "GET /a HTTP/2.0" ++ crlf; "GET /a HTTP/1" ++ crlf; "GET /a http/1.1" ++ crlf;
      "PUT /a HTTP/1.1" ++ crlf; "GET" ++ crlf; crlf ]
  = [ Accepted "GET" "/health" "HTTP/1.1"; Accepted "POST" "/ingest?x=1" "HTTP/1.0";
      Accepted "GET" "/health" "HTTP/0.9"; Rejected 400;
      Accepted "GET" "/a//b" "HTTP/1.1"; Rejected 400;
      Rejected 505; Rejected 400; Rejected 400;
      Accepted "PUT" "/a" "HTTP/1.1"; Rejected 400; Silent ].
Proof. reflexivity. Qed.

Example handle_one_request_samples :
  map (fun line => handle_one_request sample_server line [] (rfile bare_post) sample_env)
    [ "PUT /a HTTP/1.1" ++ crlf; "GET /a HTTP/2.0" ++ crlf; "POST /ingest" ++ crlf;
      crlf; EmptyString ]
  = [Refused 501; Refused 505; Refused 400; Dropped; Dropped].
Proof. reflexivity. Qed.

Example odd_target_on_the_wire :
  dump_value (PyStr odd_target)
  = quoted ("/a%20b/../c?q=1&r=" ++ String backslash (String dquote
             (String backslash (String backslash
                (String backslash "u0007" ++ String backslash "u00e9/+"))))).
Proof. reflexivity. Qed.

(** ** Decimal numerals: [int] reads what [str] writes *)

Lemma uint_value_pos (d : uint) (p : positive) :
  uint_value d (Z.pos p) = Z.pos (Pos.of_uint_acc d p).
Proof.
  revert p; induction d; intro p; cbn [uint_value Pos.of_uint_acc];
    try reflexivity; rewrite <- IHd; f_equal; lia.
Qed.

Lemma uint_value_of_uint (d : uint) : uint_value d 0 = Z.of_N (Pos.of_uint d).
Proof.
  induction d; simpl; try reflexivity; try assumption;
    rewrite <- uint_value_pos; reflexivity.
Qed.

Lemma scan_digits_uint (d : uint) (acc : Z) :
  scan_digits acc (NilEmpty.string_of_uint d) = Some (uint_value d acc).
Proof.
  revert acc; induction d; intro acc; simpl; try reflexivity;
    rewrite IHd; reflexivity.
Qed.

Lemma parse_unsigned_uint (d : uint) :
  d <> Nil -> parse_unsigned (NilEmpty.string_of_uint d) = Some (uint_value d 0).
Proof.
  destruct d; intro H; try congruence; simpl;
    rewrite scan_digits_uint; reflexivity.
Qed.

Lemma parse_unsigned_pos (p : positive) :
  parse_unsigned (NilEmpty.string_of_uint (Pos.to_uint p)) = Some (Z.pos p).
Proof.
  rewrite parse_unsigned_uint by apply DecimalPos.Unsigned.to_uint_nonnil.
  rewrite uint_value_of_uint, DecimalPos.Unsigned.of_to. reflexivity.
Qed.

Lemma string_of_uint_pos (p : positive) :
  NilZero.string_of_uint (Pos.to_uint p) = NilEmpty.string_of_uint (Pos.to_uint p).
Proof.
  pose proof (DecimalPos.Unsigned.to_uint_nonnil p) as H.
  destruct (Pos.to_uint p); try reflexivity. congruence.
Qed.

Lemma first_digit (d : uint) :
  d <> Nil ->
  exists c r, NilEmpty.string_of_uint d = String c r /\ is_digit c = true.
Proof.
  destruct d; intro H; try congruence; simpl; eexists; eexists; split;
    try reflexivity.
Qed.

Lemma digit_not_space (c : ascii) : is_digit c = true -> is_space c = false.
Proof.
  destruct c as [[] [] [] [] [] [] [] []]; try reflexivity; discriminate.
Qed.

Lemma digit_not_sign (c : ascii) :
  is_digit c = true -> Ascii.eqb c "-"%char = false /\ Ascii.eqb c "+"%char = false.
Proof.
  destruct c as [[] [] [] [] [] [] [] []]; try (split; reflexivity); discriminate.
Qed.

(** The literal [str] writes for [z] has the value [z]. *)
Lemma int_literal_py_str (z : Z) : int_literal (py_str z) = Some z.
Proof.
  unfold py_str. destruct z as [|p|p]; try reflexivity.
  - simpl Z.to_int. unfold NilZero.string_of_int.
    rewrite string_of_uint_pos.
    pose proof (parse_unsigned_pos p) as Hp.
    destruct (first_digit (Pos.to_uint p) (DecimalPos.Unsigned.to_uint_nonnil p))
      as (c & r & E & Hc).
    rewrite E in *. unfold int_literal. simpl lstrip.
    rewrite (digit_not_space c Hc).
    destruct (digit_not_sign c Hc) as [-> ->]. exact Hp.
  - simpl Z.to_int. unfold NilZero.string_of_int.
    rewrite string_of_uint_pos.
    unfold int_literal. simpl.
    rewrite parse_unsigned_pos. reflexivity.
Qed.

Lemma py_str_inj (a b : Z) : py_str a = py_str b -> a = b.
Proof.
  intro H. pose proof (int_literal_py_str a) as Ha.
  rewrite H, int_literal_py_str in Ha. congruence.
Qed.

(** ** Strings *)

Lemma append_assoc (a b c : string) : (a ++ b) ++ c = a ++ (b ++ c).
Proof. induction a; simpl; [reflexivity | rewrite IHa; reflexivity]. Qed.

Lemma append_nil_r (a : string) : a ++ EmptyString = a.
Proof. induction a; simpl; [reflexivity | rewrite IHa; reflexivity]. Qed.

Lemma length_append (a b : string) :
  String.length (a ++ b) = (String.length a + String.length b)%nat.
Proof. induction a; simpl; [reflexivity | rewrite IHa; reflexivity]. Qed.

Lemma forallb_string_impl (p q : ascii -> bool) (s : string) :
  (forall c, p c = true -> q c = true) ->
  forallb_string p s = true -> forallb_string q s = true.
Proof.
  intro H; induction s; simpl; [reflexivity |].
  intro E; apply andb_true_iff in E as [E1 E2].
  rewrite (H _ E1), (IHs E2); reflexivity.
Qed.

(** ** [json.loads] reads what [json.dumps] writes *)

Lemma read_string_escape_char (c : ascii) (tail : string) :
  read_string (escape_char c ++ tail) = push c (read_string tail).
Proof.
  destruct c as [[] [] [] [] [] [] [] []]; reflexivity.
Qed.

Lemma read_string_escape (s rest : string) :
  read_string (escape s ++ String dquote rest) = Some (s, rest).
Proof.
  induction s as [|c s IH]; [reflexivity |].
  cbn [escape]. rewrite append_assoc, read_string_escape_char, IH.
  reflexivity.
Qed.

Lemma span_number_append (lit rest : string) :
  forallb_string is_number_char lit = true ->
  ends_number rest = true ->
  span_number (lit ++ rest) = (lit, rest).
Proof.
  intros Hl Hr. induction lit as [|c lit IH].
  - destruct rest as [|c r]; [reflexivity |].
    simpl in *. apply negb_true_iff in Hr. rewrite Hr. reflexivity.
  - simpl in *. apply andb_true_iff in Hl as [Hc Hl].
    rewrite Hc, (IH Hl). reflexivity.
Qed.

Lemma int_chars_uint (d : uint) :
  forallb_string is_int_char (NilEmpty.string_of_uint d) = true.
Proof. induction d; simpl; try reflexivity; assumption. Qed.

Lemma int_chars_py_str (z : Z) : forallb_string is_int_char (py_str z) = true.
Proof.
  unfold py_str. destruct z as [|p|p]; try reflexivity;
    simpl Z.to_int; unfold NilZero.string_of_int;
    rewrite string_of_uint_pos; [| cbn [forallb_string]];
    rewrite int_chars_uint; reflexivity.
Qed.

Lemma int_char_number_char (c : ascii) :
  is_int_char c = true -> is_number_char c = true.
Proof.
  unfold is_int_char, is_number_char. intro H.
  apply orb_true_iff in H as [-> | ->]; [reflexivity |].
  rewrite orb_true_r. reflexivity.
Qed.

Lemma number_chars_py_str (z : Z) : forallb_string is_number_char (py_str z) = true.
Proof.
  apply (forallb_string_impl is_int_char); [apply int_char_number_char |].
  apply int_chars_py_str.
Qed.

Lemma py_str_nonempty (z : Z) : exists c r, py_str z = String c r.
Proof.
  pose proof (int_literal_py_str z) as H.
  destruct (py_str z) as [|c r]; [discriminate | eauto].
Qed.

Lemma classify_number_int (z : Z) : classify_number (py_str z) = Some (JInt z).
Proof.
  destruct (py_str_nonempty z) as (c & r & E).
  rewrite E. cbv beta iota delta [classify_number]. rewrite <- E.
  rewrite int_chars_py_str, int_literal_py_str, String.eqb_refl. reflexivity.
Qed.

Lemma float_repr_chars (f : pyfloat) :
  forallb_string is_number_char (float_repr f) = true
  /\ forallb_string is_int_char (float_repr f) = false.
Proof.
  pose proof (float_repr_ok f) as H. unfold float_literal in H.
  apply andb_true_iff in H as [H1 H2]. apply negb_true_iff in H2. auto.
Qed.

Lemma float_repr_nonempty (f : pyfloat) : exists c r, float_repr f = String c r.
Proof.
  destruct (float_repr_chars f) as [_ H].
  destruct (float_repr f) as [|c r]; [discriminate | eauto].
Qed.

Lemma classify_number_float (f : pyfloat) :
  classify_number (float_repr f) = Some (JFloat (float_repr f)).
Proof.
  destruct (float_repr_chars f) as [_ H].
  destruct (float_repr_nonempty f) as (c & r & E).
  revert H. rewrite E. cbv beta iota delta [classify_number].
  intros ->. reflexivity.
Qed.

Lemma number_char_plain (c : ascii) :
  is_number_char c = true -> is_ws c = false /\ Ascii.eqb c dquote = false.
Proof.
  destruct c as [[] [] [] [] [] [] [] []]; try (split; reflexivity); discriminate.
Qed.

Lemma read_value_number (lit rest : string) (v : jvalue) :
  forallb_string is_number_char lit = true ->
  ends_number rest = true ->
  classify_number lit = Some v ->
  read_value (lit ++ rest) = Some (v, rest).
Proof.
  intros Hl Hr Hv. destruct lit as [|c r]; [discriminate |].
  pose proof Hl as Hc. cbn [forallb_string] in Hc.
  apply andb_true_iff in Hc as [Hc _].
  destruct (number_char_plain c Hc) as [_ Hq].
  unfold read_value. cbn [append]. rewrite Hq.
  change (String c (r ++ rest)) with (String c r ++ rest).
  rewrite (span_number_append _ _ Hl Hr), Hv. reflexivity.
Qed.

Lemma read_value_dump (v : pyobj) (rest : string) :
  ends_number rest = true ->
  read_value (dump_value v ++ rest) = Some (to_jvalue v, rest).
Proof.
  intro Hr. destruct v as [s|z|f]; cbn [dump_value to_jvalue].
  - unfold encode_basestring_ascii, read_value. cbn [append].
    rewrite Ascii.eqb_refl, append_assoc. cbn [append].
    rewrite read_string_escape. reflexivity.
  - apply read_value_number; auto using number_chars_py_str, classify_number_int.
  - apply read_value_number; auto using classify_number_float.
    apply float_repr_chars.
Qed.

Lemma dump_value_first (v : pyobj) (rest : string) :
  exists c r, dump_value v ++ rest = String c r /\ is_ws c = false.
Proof.
  destruct v as [s|z|f]; cbn [dump_value].
  - unfold encode_basestring_ascii. cbn [append]. eauto.
  - destruct (py_str_nonempty z) as (c & r & E).
    pose proof (number_chars_py_str z) as H. rewrite E in *.
    cbn [forallb_string] in H. apply andb_true_iff in H as [H _].
    cbn [append]. exists c, (r ++ rest). split; [reflexivity |].
    apply (number_char_plain c H).
  - destruct (float_repr_nonempty f) as (c & r & E).
    destruct (float_repr_chars f) as [H _]. rewrite E in *.
    cbn [forallb_string] in H. apply andb_true_iff in H as [H _].
    cbn [append]. exists c, (r ++ rest). split; [reflexivity |].
    apply (number_char_plain c H).
Qed.

Lemma dump_items_cons (kv kv' : string * pyobj) (d : dict) :
  dump_items (kv :: kv' :: d) = dump_item kv ++ ", " ++ dump_items (kv' :: d).
Proof. reflexivity. Qed.

Lemma dump_items_first (d : dict) (rest : string) :
  d <> [] -> exists r, dump_items d ++ rest = String dquote r.
Proof.
  destruct d as [|kv [|kv' d']]; intro H; [congruence | |];
    cbn [dump_items]; unfold dump_item, encode_basestring_ascii;
    cbn [append]; eauto.
Qed.

Lemma skip_ws_stop (c : ascii) (r : string) :
  is_ws c = false -> skip_ws (String c r) = String c r.
Proof. intro H. cbn [skip_ws]. rewrite H. reflexivity. Qed.

Lemma skip_ws_blank (r : string) : skip_ws (String " "%char r) = skip_ws r.
Proof. reflexivity. Qed.

(** One member, up to the separator after its value. *)
Lemma read_members_item (fuel : nat) (kv : string * pyobj) (tail : string) :
  ends_number tail = true ->
  read_members (S fuel) (dump_item kv ++ tail) =
    match skip_ws tail with
    | String sep r4 =>
        if Ascii.eqb sep "}"%char then Some ([(fst kv, to_jvalue (snd kv))], r4)
        else if Ascii.eqb sep ","%char then
          match read_members fuel (skip_ws r4) with
          | Some (m, r5) => Some ((fst kv, to_jvalue (snd kv)) :: m, r5)
          | None => None
          end
        else None
    | EmptyString => None
    end.
Proof.
  intro Ht. destruct kv as [k v]. cbn [fst snd].
  unfold dump_item, encode_basestring_ascii. cbn [fst snd append].
  cbn [read_members]. rewrite Ascii.eqb_refl.
  rewrite !append_assoc. cbn [append].
  rewrite read_string_escape.
  rewrite skip_ws_stop by reflexivity.
  change (Ascii.eqb ":"%char ":"%char) with true. cbv iota.
  rewrite skip_ws_blank.
  destruct (dump_value_first v tail) as (c & r & E & Hc).
  rewrite E, (skip_ws_stop c r Hc), <- E.
  rewrite (read_value_dump v tail Ht). reflexivity.
Qed.

Lemma read_members_dump (d : dict) :
  forall (fuel : nat) (rest : string),
    d <> [] -> (length d <= fuel)%nat ->
    read_members fuel (dump_items d ++ String "}"%char rest) = Some (to_json d, rest).
Proof.
  induction d as [|kv d IH]; intros fuel rest Hd Hf; [congruence |].
  destruct fuel as [|fuel]; [simpl in Hf; lia |].
  destruct d as [|kv' d'].
  - cbn [dump_items]. rewrite read_members_item by reflexivity. reflexivity.
  - rewrite dump_items_cons, !append_assoc.
    rewrite read_members_item by reflexivity.
    cbn [append]. rewrite skip_ws_stop by reflexivity.
    change (Ascii.eqb ","%char "}"%char) with false. cbv iota.
    change (Ascii.eqb ","%char ","%char) with true. cbv iota.
    rewrite skip_ws_blank.
    destruct (dump_items_first (kv' :: d') (String "}"%char rest)) as (r & E);
      [congruence |].
    rewrite E, skip_ws_stop by reflexivity. rewrite <- E.
    rewrite IH; [reflexivity | congruence | simpl in *; lia].
Qed.

Lemma length_dump_items (d : dict) :
  (length d <= String.length (dump_items d))%nat.
Proof.
  induction d as [|kv d IH]; [simpl; lia |].
  destruct d as [|kv' d'].
  - cbn [dump_items]. unfold dump_item, encode_basestring_ascii.
    cbn [append String.length length]. lia.
  - rewrite dump_items_cons, !length_append.
    change (String.length ", ") with 2%nat.
    cbn [Datatypes.length] in *. lia.
Qed.

(** Loading the dump of a dict gives its members back, in order. *)
Lemma json_loads_dumps (d : dict) : json_loads (json_dumps d) = Some (to_json d).
Proof.
  unfold json_loads, json_dumps. cbn [append].
  rewrite skip_ws_stop by reflexivity.
  change (Ascii.eqb "{"%char "{"%char) with true. cbv iota.
  destruct d as [|kv d]; [reflexivity |].
  destruct (dump_items_first (kv :: d) "}") as (r & E); [congruence |].
  rewrite E, skip_ws_stop by reflexivity.
  change (Ascii.eqb dquote "}"%char) with false. cbv iota.
  rewrite <- E. rewrite read_members_dump; [reflexivity | congruence |].
  cbn [String.length]. rewrite length_append.
  pose proof (length_dump_items (kv :: d)). lia.
Qed.

(** ** [decode] reads what [encode] writes *)

Lemma decode_encode_char (c : ascii) (tail : string) :
  decode (encode_char c ++ tail) =
    match decode tail with
    | Some s => Some (String c s)
    | None => None
    end.
Proof.
  destruct c as [[] [] [] [] [] [] [] []]; reflexivity.
Qed.

Lemma decode_encode (s : string) : decode (encode s) = Some s.
Proof.
  induction s as [|c s IH]; [reflexivity |].
  cbn [encode]. rewrite decode_encode_char, IH. reflexivity.
Qed.

(** ** The body stream *)

Lemma length_drop (n : nat) (s : string) :
  String.length (drop n s) = (String.length s - n)%nat.
Proof.
  revert s; induction n as [|n IH]; intros [|c s]; simpl; auto.
Qed.


Lemma drop_nil (n : nat) : drop n EmptyString = EmptyString.
Proof. destruct n; reflexivity. Qed.

Lemma drop_drop (p k : nat) (s : string) : drop (p + k) s = drop k (drop p s).
Proof.
  revert s; induction p as [|p IH]; intros [|c s]; cbn [Nat.add drop];
    rewrite ?drop_nil; auto.
Qed.

Lemma incoming_advance (count : nat) (s : stream) :
  incoming (advance count s) = drop count (incoming s).
Proof. unfold incoming, advance. cbn [sent position]. apply drop_drop. Qed.

Lemma advance_zero (s : stream) : advance 0 s = s.
Proof.
  destruct s as [b p c m H]. unfold advance. cbn [sent position closed room sent_fits].
  rewrite Nat.add_0_r. reflexivity.
Qed.

(** What is left of a stream fits a [bytes] object the interpreter can
    allocate. *)
Lemma incoming_fits (s : stream) :
  Z.of_nat (String.length (incoming s)) <= room s <= max_bytes.
Proof.
  pose proof (sent_fits s) as H. unfold fits in H.
  apply andb_true_iff in H as [H1 H2].
  apply Z.leb_le in H1. apply Z.leb_le in H2.
  unfold incoming. rewrite length_drop. lia.
Qed.

(** Settles the comparisons of a goal that the hypotheses decide. *)
Ltac settle :=
  unfold min_index, max_index, max_bytes in *;
  repeat match goal with
  | |- context [?a <? ?b] =>
      first [ replace (a <? b) with false by (symmetry; apply Z.ltb_ge; lia)
            | replace (a <? b) with true by (symmetry; apply Z.ltb_lt; lia) ]
  | |- context [?a <=? ?b] =>
      first [ replace (a <=? b) with false by (symmetry; apply Z.leb_gt; lia)
            | replace (a <=? b) with true by (symmetry; apply Z.leb_le; lia) ]
  | |- context [?a =? ?b] =>
      first [ replace (a =? b) with false by (symmetry; apply Z.eqb_neq; lia)
            | replace (a =? b) with true by (symmetry; apply Z.eqb_eq; lia) ]
  end;
  cbn [orb andb].

(** A read of no more bytes than are there returns them. *)
Lemma read_outcome_present (n : Z) (s : stream) :
  0 <= n <= Z.of_nat (String.length (incoming s)) ->
  read_outcome n s = Reads (Z.to_nat n).
Proof.
  intro H. pose proof (incoming_fits s) as F. unfold read_outcome.
  settle. reflexivity.
Qed.

(** The number of bytes a read returns: [size] of them when they are
    there, else all there are. *)
Lemma read_outcome_count (n : Z) (s : stream) (count : nat) :
  read_outcome n s = Reads count ->
  count = if (0 <=? n) && (n <=? Z.of_nat (String.length (incoming s)))
          then Z.to_nat n else String.length (incoming s).
Proof.
  unfold read_outcome.
  destruct ((n <? min_index) || (max_index <? n)); [discriminate |].
  destruct (n <? -1) eqn:E3; [discriminate |]. apply Z.ltb_ge in E3.
  destruct (n =? -1) eqn:E4.
  - apply Z.eqb_eq in E4. subst n. cbn [Z.leb andb Z.compare].
    destruct (closed s); [congruence | discriminate].
  - apply Z.eqb_neq in E4.
    destruct (max_bytes <? n); [discriminate |].
    destruct (room s <? n); [discriminate |].
    destruct (0 <=? n) eqn:E0; [| apply Z.leb_gt in E0; lia]. cbn [andb].
    destruct (n <=? _); [congruence |].
    destruct (closed s); [congruence | discriminate].
Qed.

(** When a read returns, in full: the bytes are there; or the stream has
    ended and the size is -1, or one the interpreter can allocate. *)
Lemma read_completes_iff (n : Z) (s : stream) :
  read_completes n s = true <->
  0 <= n <= Z.of_nat (String.length (incoming s))
  \/ closed s = true
     /\ (n = -1 \/ Z.of_nat (String.length (incoming s)) < n <= room s).
Proof.
  pose proof (incoming_fits s) as F. split.
  - unfold read_completes, read_outcome.
    destruct ((n <? min_index) || (max_index <? n)); [discriminate |].
    destruct (n <? -1) eqn:E3; [discriminate |]. apply Z.ltb_ge in E3.
    destruct (n =? -1) eqn:E4.
    + apply Z.eqb_eq in E4. destruct (closed s); [auto | discriminate].
    + apply Z.eqb_neq in E4.
      destruct (max_bytes <? n); [discriminate |].
      destruct (room s <? n) eqn:E6; [discriminate |]. apply Z.ltb_ge in E6.
      destruct (n <=? Z.of_nat (String.length (incoming s))) eqn:E7.
      * apply Z.leb_le in E7. intros _. left. lia.
      * apply Z.leb_gt in E7. destruct (closed s); [| discriminate].
        intros _. right. split; [reflexivity |]. right. lia.
  - unfold read_completes. intros [H | [Hc [-> | H]]].
    + rewrite read_outcome_present by exact H. reflexivity.
    + unfold read_outcome. cbn. rewrite Hc. reflexivity.
    + unfold read_outcome. settle. rewrite Hc. reflexivity.
Qed.

Lemma after_read_zero (s : stream) : after_read 0 s = s.
Proof.
  unfold after_read. rewrite read_outcome_present by lia. apply advance_zero.
Qed.

Lemma bytes_read_after (n : Z) (s : stream) (hb w : list wire) (out : list string) :
  read_completes n s = true ->
  bytes_read s (mkstate (after_read n s) hb w out)
  = if (0 <=? n) && (n <=? Z.of_nat (String.length (incoming s)))
    then Z.to_nat n else String.length (incoming s).
Proof.
  unfold read_completes, after_read, bytes_read. cbn [st_rfile].
  destruct (read_outcome n s) as [count| |] eqn:E; try discriminate. intros _.
  rewrite incoming_advance, length_drop, (read_outcome_count n s count E).
  destruct (0 <=? n) eqn:E1; cbn [andb]; [destruct (n <=? _) eqn:E2 |]; lia.
Qed.

(** ** The handlers, step by step *)

Lemma reply_of_response (rf : stream) (hb : list wire) (out : list string)
    (e : env) (d : dict) :
  reply_of (mkstate rf hb (response_wire e d) out) = Some (200, to_json d).
Proof.
  unfold reply_of, response_wire. cbn [wfile status_code body_bytes].
  rewrite append_nil_r, decode_encode, json_loads_dumps. reflexivity.
Qed.

Lemma body_of_wire (rf : stream) (hb : list wire) (out : list string)
    (version : string) (e : env) (d : dict) :
  body_of (mkstate rf hb (wire_of version e d) out) = Some (to_json d).
Proof.
  unfold body_of, wire_of, response_wire.
  destruct (String.eqb version "HTTP/0.9"); cbn [wfile body_bytes];
    rewrite append_nil_r, decode_encode; apply json_loads_dumps.
Qed.

Lemma do_GET_run (slf : self) (rf : stream) :
  do_GET slf (mkstate rf [] [] []) =
    Returned tt
      (mkstate rf []
         (wire_of (request_version slf) (environ slf)
            (GET_response (server slf) (path (req slf)) (time_time (environ slf))))
         [access_log (server slf) (req slf)]).
Proof.
  unfold do_GET, send_response, send_response_only, send_header, end_headers,
    unless_simple, wire_of, bind, ask, ret.
  destruct (String.eqb (request_version slf) "HTTP/0.9"); reflexivity.
Qed.

Lemma do_POST_run (slf : self) (rf : stream) :
  do_POST slf (mkstate rf [] [] []) =
    match content_length_of (req slf) with
    | inl ex => Raised ex (mkstate rf [] [] [])
    | inr n =>
        match read_outcome n rf with
        | Reads count =>
            Returned tt
              (mkstate (advance count rf) []
                 (wire_of (request_version slf) (environ slf)
                    (POST_response (server slf) (path (req slf)) n
                       (time_time (environ slf))))
                 [access_log (server slf) (req slf)])
        | Refuses ex => Raised ex (mkstate rf [] [] [])
        | Waits => Blocked (mkstate rf [] [] [])
        end
    end.
Proof.
  unfold do_POST, content_length_of, bind, ask, lift.
  destruct (py_int _) as [ex|n]; [reflexivity |].
  unfold rfile_read. cbn [st_rfile headers_buffer wfile stdout].
  destruct (read_outcome n rf) as [count|ex|]; try reflexivity.
  unfold send_response, send_response_only, send_header, end_headers,
    unless_simple, wire_of, bind, ask, ret.
  destruct (String.eqb (request_version slf) "HTTP/0.9"); reflexivity.
Qed.

Section OneRequest.

Variables (srv : HTTPServer) (r : request) (e : env).

(** How a request ends, whatever version its line gave: answered, in
    the state [answer_state_of] describes, or not answered at all. *)
Lemma handle_version_run (version : string) :
  handle_version version srv (r, e)
  = if answerable r then Returned tt (answer_state_of version srv r e)
    else unanswered r.
Proof.
  unfold handle_version, answerable, answer_state_of, unanswered, payload_of,
    content_length_value, read_completes, after_read, init_state.
  destruct (command r).
  - rewrite do_GET_run. reflexivity.
  - rewrite do_POST_run. cbn [req server environ request_version].
    destruct (content_length_of r) as [ex|n]; [reflexivity |].
    destruct (read_outcome n (rfile r)); reflexivity.
Qed.

Lemma handle_run :
  handle srv (r, e)
  = if answerable r then Returned tt (answer_state srv r e) else unanswered r.
Proof. unfold handle. rewrite handle_version_run. reflexivity. Qed.

(** Every version but HTTP/0.9 gives the run of [handle]. *)
Lemma handle_version_named (version : string) :
  String.eqb version "HTTP/0.9" = false ->
  handle_version version srv (r, e) = handle srv (r, e).
Proof.
  intro V. rewrite handle_version_run, handle_run.
  unfold answer_state_of, answer_state, wire_of. rewrite V. reflexivity.
Qed.

(** An answerable request is answered, and this is the state it ends in. *)
Lemma handle_answerable :
  answerable r = true -> handle srv (r, e) = Returned tt (answer_state srv r e).
Proof. intro A. rewrite handle_run, A. reflexivity. Qed.

(** Any other request gets no response at all: the handler raises
    before it writes, or waits on the read. *)
Lemma handle_unanswerable :
  answerable r = false -> handle srv (r, e) = unanswered r.
Proof. intro A. rewrite handle_run, A. reflexivity. Qed.

Lemma unanswered_final : final (unanswered r) = init_state r.
Proof.
  unfold unanswered. destruct (content_length_of r) as [ex|n]; [reflexivity |].
  destruct (read_outcome n (rfile r)); reflexivity.
Qed.

Lemma unanswered_result (st : hstate) : unanswered r <> Returned tt st.
Proof.
  unfold unanswered. destruct (content_length_of r) as [ex|n]; [discriminate |].
  destruct (read_outcome n (rfile r)); discriminate.
Qed.

Lemma handle_returned (st : hstate) :
  handle srv (r, e) = Returned tt st ->
  answerable r = true /\ st = answer_state srv r e.
Proof.
  rewrite handle_run. destruct (answerable r).
  - intro H. split; congruence.
  - intro H. destruct (unanswered_result st H).
Qed.

Lemma reply_of_answer :
  reply_of (answer_state srv r e)
  = Some (200, to_json (payload_of srv r e (content_length_value r))).
Proof. apply reply_of_response. Qed.

End OneRequest.

Lemma headers_get_absent (hs : list (string * string)) (name : string)
    (failobj : str_or_int) :
  has_header hs name = false -> headers_get hs name failobj = failobj.
Proof.
  induction hs as [|[k v] hs IH]; [reflexivity |].
  cbn [has_header existsb headers_get fst]. intro H.
  apply orb_false_iff in H as [-> H]. exact (IH H).
Qed.

(** ** The requests and their responses *)

(** Opens a goal about an answered request: the final state and the
    loaded body are the ones [handle_answerable] and [reply_of_answer]
    give; what is left is the goal about the payload. *)
Ltac answered A :=
  match goal with
  | |- exists st m, handle ?srv (?r, ?e) = Returned tt st /\ _ =>
      exists (answer_state srv r e);
      exists (to_json (payload_of srv r e (content_length_value r)));
      split; [apply handle_answerable, A |];
      split; [apply reply_of_answer |]
  end.

(** C1, as stated, fails: ten bytes are announced and three are sent;
    the response says [body_length] 10 while 3 bytes were read. *)
Lemma body_length_is_not_bytes_read :
  exists st m,
    command short_post = POST
    /\ handle sample_server (short_post, sample_env) = Returned tt st
    /\ reply_of st = Some (200, m)
    /\ bytes_read (rfile short_post) st = 3%nat
    /\ jget "body_length" m = Some (JInt 10)
    /\ jget "body_length" m
       <> Some (JInt (Z.of_nat (bytes_read (rfile short_post) st))).
Proof.
  exists (answer_state sample_server short_post sample_env).
  exists (to_json (POST_response sample_server "/ingest" 10 sample_now)).
  repeat (split; [vm_compute; reflexivity |]).
  vm_compute. discriminate.
Qed.

(** C1 (amended): a POST whose body read returns is answered, and
    reports as [body_length] the integer of its Content-Length header (0
    without the header), whatever number of bytes was read.  The two
    agree when that integer is between 0 and the number of bytes the
    client sends; when the client sends fewer and ends the stream, or
    the integer is -1, all the bytes sent are read and [body_length] is
    still the header's integer.  The read returns in these cases alone
    ([read_completes_iff]): a size that is no index, or that no [bytes]
    object has room for, makes it raise, and nothing is sent. *)
Theorem body_length_is_content_length
    (srv : HTTPServer) (r : request) (e : env) (n : Z) :
  command r = POST ->
  content_length_of r = inr n ->
  read_completes n (rfile r) = true ->
  exists st m,
    handle srv (r, e) = Returned tt st
    /\ reply_of st = Some (200, m)
    /\ jget "body_length" m = Some (JInt n)
    /\ (0 <= n <= Z.of_nat (String.length (incoming (rfile r))) ->
        Z.of_nat (bytes_read (rfile r) st) = n)
    /\ (n < 0 \/ Z.of_nat (String.length (incoming (rfile r))) < n ->
        bytes_read (rfile r) st = String.length (incoming (rfile r))).
Proof.
  intros Hm Hn Hr.
  assert (answerable r = true) as A by (unfold answerable; rewrite Hm, Hn; exact Hr).
  answered A.
  unfold answer_state, payload_of, content_length_value. rewrite Hm, Hn.
  split; [reflexivity |].
  rewrite bytes_read_after by exact Hr.
  split; intro H.
  - settle. lia.
  - destruct H; settle; reflexivity.
Qed.

Lemma body_length_is_content_length_witness :
  exists st m,
    handle sample_server (short_post, sample_env) = Returned tt st
    /\ reply_of st = Some (200, m)
    /\ jget "body_length" m = Some (JInt 10)
    /\ (0 <= 10 <= Z.of_nat (String.length (incoming (rfile short_post))) ->
        Z.of_nat (bytes_read (rfile short_post) st) = 10)
    /\ (10 < 0 \/ Z.of_nat (String.length (incoming (rfile short_post))) < 10 ->
        bytes_read (rfile short_post) st = String.length (incoming (rfile short_post))).
Proof.
  apply (body_length_is_content_length sample_server short_post sample_env 10);
    reflexivity.
Defined.

(** C2: the code at the failing input.  With [Content-Length: abc] the
    conversion raises [ValueError] out of [do_POST] and nothing is
    written: no status line, no JSON body, no [body_length], where the
    claim has a 200 response with [body_length] 0.  The same request
    without the header does get that response. *)
Lemma malformed_content_length_is_not_absorbed :
  (exists st,
     command malformed_post = POST
     /\ headers_get (headers malformed_post) "Content-Length" (Int 0) = Str "abc"
     /\ int_of_str "abc" = None
     /\ handle sample_server (malformed_post, sample_env) = Raised ValueError st
     /\ bytes_read (rfile malformed_post) st = 0%nat
     /\ wfile st = []
     /\ reply_of st = None)
  /\ (exists st m,
        bare_post = with_headers malformed_post [("Host", "localhost:3000")]
        /\ handle sample_server (bare_post, sample_env) = Returned tt st
        /\ reply_of st = Some (200, m)
        /\ jget "body_length" m = Some (JInt 0)).
Proof.
  split.
  - exists (init_state malformed_post).
    repeat (split; [vm_compute; reflexivity |]). vm_compute; reflexivity.
  - exists (answer_state sample_server bare_post sample_env).
    exists (to_json (POST_response sample_server "/ingest" 0 sample_now)).
    repeat (split; [vm_compute; reflexivity |]). vm_compute; reflexivity.
Qed.

(** The same for every value that is no integer: the conversion raises
    before a byte of the body is read and before anything is written. *)
Lemma malformed_content_length_raises
    (srv : HTTPServer) (r : request) (e : env) (v : string) :
  command r = POST ->
  headers_get (headers r) "Content-Length" (Int 0) = Str v ->
  int_of_str v = None ->
  handle srv (r, e) = Raised ValueError (init_state r)
  /\ bytes_read (rfile r) (init_state r) = 0%nat
  /\ wfile (init_state r) = []
  /\ reply_of (init_state r) = None.
Proof.
  intros Hm Hv Hi.
  assert (content_length_of r = inl ValueError) as Hc
    by (unfold content_length_of; rewrite Hv; cbn [py_int]; rewrite Hi; reflexivity).
  rewrite handle_unanswerable
    by (unfold answerable; rewrite Hm, Hc; reflexivity).
  unfold unanswered. rewrite Hc. unfold bytes_read, init_state. cbn [st_rfile wfile].
  repeat split; try reflexivity. lia.
Qed.

(** C3: a POST with no Content-Length header reads no byte of the body
    and is answered 200 with [body_length] 0. *)
Theorem missing_content_length_reads_nothing
    (srv : HTTPServer) (r : request) (e : env) :
  command r = POST ->
  has_header (headers r) "Content-Length" = false ->
  exists st m,
    handle srv (r, e) = Returned tt st
    /\ st_rfile st = rfile r
    /\ bytes_read (rfile r) st = 0%nat
    /\ reply_of st = Some (200, m)
    /\ jget "body_length" m = Some (JInt 0).
Proof.
  intros Hm Hh.
  assert (content_length_of r = inr 0) as Hc
    by (unfold content_length_of; rewrite headers_get_absent by exact Hh; reflexivity).
  assert (answerable r = true) as A.
  { unfold answerable, read_completes. rewrite Hm, Hc.
    rewrite read_outcome_present by lia. reflexivity. }
  exists (answer_state srv r e), (to_json (payload_of srv r e (content_length_value r))).
  split; [apply handle_answerable, A |].
  unfold answer_state, payload_of, content_length_value, bytes_read.
  rewrite Hm, Hc, after_read_zero. cbn [st_rfile].
  split; [reflexivity |]. split; [lia |].
  split; [apply reply_of_response | reflexivity].
Qed.

Lemma missing_content_length_witness :
  exists st m,
    handle sample_server (bare_post, sample_env) = Returned tt st
    /\ st_rfile st = rfile bare_post
    /\ bytes_read (rfile bare_post) st = 0%nat
    /\ reply_of st = Some (200, m)
    /\ jget "body_length" m = Some (JInt 0).
Proof.
  apply (missing_content_length_reads_nothing sample_server bare_post sample_env);
    reflexivity.
Defined.

(** ** One running instance *)

Lemma serve_forever_cons (srv : HTTPServer) (conn : request * env)
    (rest : list (request * env)) :
  serve_forever srv (conn :: rest)
  = match handle srv conn with
    | Blocked st => [Blocked st]
    | r => r :: serve_forever srv rest
    end.
Proof. reflexivity. Qed.

Lemma serve_forever_In (srv : HTTPServer) (conns : list (request * env))
    (r : result unit) :
  In r (serve_forever srv conns) ->
  exists conn, In conn conns /\ r = handle srv conn.
Proof.
  induction conns as [|conn rest IH]; [intros [] |].
  rewrite serve_forever_cons.
  destruct (handle srv conn) as [a st|ex st|st] eqn:E;
    cbn [In]; intros [H | H];
    try (exists conn; split; [left; reflexivity | congruence]);
    try contradiction;
    destruct (IH H) as (c & Hc & Hr); exists c; split; auto.
Qed.

Lemma serve_forever_answerable (srv : HTTPServer) (conns : list (request * env)) :
  Forall (fun conn => answerable (fst conn) = true) conns ->
  serve_forever srv conns = map (handle srv) conns.
Proof.
  induction 1 as [|[r e] rest A _ IH]; [reflexivity |].
  rewrite serve_forever_cons. cbn [map fst] in *. rewrite IH.
  rewrite (handle_answerable srv r e A). reflexivity.
Qed.

Lemma bind_socket_valid (sys : os) (host : string) (port : Z) :
  1 <= port <= 65535 -> unavailable sys port = false ->
  bind_socket sys (host, port) = inr (host, port).
Proof.
  intros Hp Hu. unfold bind_socket.
  destruct (port <? 0) eqn:E1; [exfalso; lia |].
  destruct (65535 <? port) eqn:E2; [exfalso; lia |].
  destruct (port =? 0) eqn:E3; [exfalso; lia |].
  cbn [orb]. rewrite Hu. reflexivity.
Qed.

Lemma identity_fields (srv : HTTPServer) (r : request) (e : env) (n : Z) :
  jget "backend" (to_json (payload_of srv r e n)) = Some (JString (backend_name srv))
  /\ jget "port" (to_json (payload_of srv r e n)) = Some (JInt (server_port srv)).
Proof. unfold payload_of. destruct (command r); split; reflexivity. Qed.

(** C4: started on a valid port [P] under the name [N], the server
    carries them for its lifetime: every response it sends, to GET or to
    POST, and so any two of them, has [backend] equal to [N] and [port]
    equal to [P]; and when every request is one a handler answers, each
    connection gets such a response. *)
Theorem identity_in_every_response
    (sys : os) (P : Z) (N : string) (conns : list (request * env)) :
  1 <= P <= 65535 ->
  unavailable sys P = false ->
  exists srv,
    started (run_backend sys P N conns) = Some srv
    /\ server_port srv = P
    /\ backend_name srv = N
    /\ (forall r st,
          In r (served (run_backend sys P N conns)) ->
          r = Returned tt st ->
          exists m,
            reply_of st = Some (200, m)
            /\ jget "backend" m = Some (JString N)
            /\ jget "port" m = Some (JInt P))
    /\ (Forall (fun conn => answerable (fst conn) = true) conns ->
        served (run_backend sys P N conns) = map (handle srv) conns
        /\ Forall (fun r => exists st, r = Returned tt st)
             (served (run_backend sys P N conns))
        /\ exit (run_backend sys P N conns) = Exited 0).
Proof.
  intros HP Hu. set (srv := mkserver ("localhost", P) P N).
  assert (forall p, p = run_backend sys P N conns ->
            started p = Some srv
            /\ served p = serve_forever srv conns
            /\ exit p = Exited 0) as Hrun.
  { intros p ->. unfold run_backend.
    rewrite (bind_socket_valid sys "localhost" P HP Hu). cbn [snd]. fold srv.
    repeat split. }
  destruct (Hrun _ eq_refl) as (Hs & Hv & He).
  exists srv. rewrite Hs, Hv. repeat split.
  - intros r st Hin ->.
    destruct (serve_forever_In _ _ _ Hin) as ([rq e] & _ & Hh).
    symmetry in Hh. apply handle_returned in Hh as [_ ->].
    eexists. split; [apply reply_of_answer |]. apply identity_fields.
  - rewrite serve_forever_answerable by assumption. reflexivity.
  - rewrite serve_forever_answerable by assumption.
    apply Forall_forall. intros r Hin. apply in_map_iff in Hin as ([rq e] & <- & Hc).
    rewrite Forall_forall in H. specialize (H _ Hc). cbn [fst] in H.
    rewrite (handle_answerable srv rq e H). eauto.
  - exact He.
Qed.

Lemma identity_in_every_response_witness :
  exists srv,
    started (run_backend sample_os 3000 "backend-1" sample_conns) = Some srv
    /\ server_port srv = 3000
    /\ backend_name srv = "backend-1"
    /\ (forall r st,
          In r (served (run_backend sample_os 3000 "backend-1" sample_conns)) ->
          r = Returned tt st ->
          exists m,
            reply_of st = Some (200, m)
            /\ jget "backend" m = Some (JString "backend-1")
            /\ jget "port" m = Some (JInt 3000))
    /\ (Forall (fun conn => answerable (fst conn) = true) sample_conns ->
        served (run_backend sample_os 3000 "backend-1" sample_conns)
        = map (handle srv) sample_conns
        /\ Forall (fun r => exists st, r = Returned tt st)
             (served (run_backend sample_os 3000 "backend-1" sample_conns))
        /\ exit (run_backend sample_os 3000 "backend-1" sample_conns) = Exited 0).
Proof.
  apply (identity_in_every_response sample_os 3000 "backend-1" sample_conns);
    [lia | reflexivity].
Defined.

(** The command line [prog a N], with [a] a port argument that [int]
    reads as [P], starts that very server, and [prog a] starts it under
    the name [backend-P]. *)
Lemma main_runs_backend (sys : os) (prog a N : string) (P : Z)
    (conns : list (request * env)) :
  int_of_str a = Some P ->
  main sys [prog; a; N] conns = run_backend sys P N conns
  /\ main sys [prog; a] conns
     = run_backend sys P ("backend-" ++ py_str P) conns.
Proof.
  intro Hi. unfold main. cbn [length Nat.ltb Nat.leb nth py_int].
  rewrite Hi. split; reflexivity.
Qed.

(** ** The request line and the path *)

Lemma parse_request_accepted (raw c p v : string) :
  parse_request raw = Accepted c p v ->
  exists target,
    (split (rstrip_eol raw) = [c; target] /\ c = "GET" /\ v = "HTTP/0.9"
     \/ split (rstrip_eol raw) = [c; target; v])
    /\ p = single_slash target.
Proof.
  unfold parse_request.
  destruct (split (rstrip_eol raw)) as [|w1 [|w2 [|w3 [|w4 ws]]]];
    cbn [length Nat.eqb Nat.leb]; try discriminate.
  - destruct (String.eqb w1 "GET") eqn:G; [| discriminate].
    apply String.eqb_eq in G. intro H. injection H as <- <- <-.
    exists w2. split; [left; auto | reflexivity].
  - cbn [last].
    destruct (version_number w3) as [[major minor]|]; [| discriminate].
    destruct ((2 <? major) || (major =? 2) && (0 <=? minor)); [discriminate |].
    intro H. injection H as <- <- <-.
    exists w2. split; [right; reflexivity | reflexivity].
  - destruct (version_number (last (w1 :: w2 :: w3 :: w4 :: ws) EmptyString))
      as [[major minor]|]; [| discriminate].
    destruct ((2 <? major) || (major =? 2) && (0 <=? minor)); discriminate.
Qed.

Lemma method_of_name (c : string) (m : method) :
  method_of c = Some m ->
  c = match m with GET => "GET" | POST => "POST" end.
Proof.
  unfold method_of.
  destruct (String.eqb c "GET") eqn:G;
    [apply String.eqb_eq in G; intro H; injection H as <-; exact G |].
  destruct (String.eqb c "POST") eqn:Q; [| discriminate].
  apply String.eqb_eq in Q. intro H. injection H as <-. exact Q.
Qed.

(** When the library lets a handler of the source run, it runs on the
    request [parse_request] made of the line. *)
Lemma handle_one_request_handled
    (srv : HTTPServer) (raw : string) (hs : list (string * string))
    (body : stream) (e : env) (res : result unit) :
  handle_one_request srv raw hs body e = Handled res ->
  exists c p v m,
    parse_request raw = Accepted c p v
    /\ method_of c = Some m
    /\ res = handle_version v srv (mkrequest m p (rstrip_eol raw) hs body, e).
Proof.
  unfold handle_one_request.
  destruct (65536 <? Z.of_nat (String.length raw)); [discriminate |].
  destruct (String.length raw =? 0)%nat; [discriminate |].
  destruct (parse_request raw) as [c p v| |]; try discriminate.
  destruct (method_of c) as [m|] eqn:M; [| discriminate].
  intro H. injection H as <-. exists c, p, v, m. auto.
Qed.

(** A request line of at most 65536 bytes that [parse_request] accepts
    with a version other than HTTP/0.9, and whose method is GET or POST,
    is handled as [handle] says. *)
Lemma handle_one_request_named
    (srv : HTTPServer) (raw : string) (hs : list (string * string))
    (body : stream) (e : env) (c p v : string) (m : method) :
  Z.of_nat (String.length raw) <= 65536 ->
  parse_request raw = Accepted c p v ->
  method_of c = Some m ->
  String.eqb v "HTTP/0.9" = false ->
  handle_one_request srv raw hs body e
  = Handled (handle srv (mkrequest m p (rstrip_eol raw) hs body, e)).
Proof.
  intros Hl Hp Hm Hv. unfold handle_one_request.
  destruct (65536 <? Z.of_nat (String.length raw)) eqn:E;
    [apply Z.ltb_lt in E; lia |].
  destruct raw as [|ch raw']; [discriminate |].
  cbn [String.length Nat.eqb]. rewrite Hp, Hm.
  rewrite handle_version_named by exact Hv. reflexivity.
Qed.

(** C5, as stated, fails: the target [//a//b] comes back as [/a//b].
    The library reduces the slashes a target starts with to one before
    the handler sees the path. *)
Lemma path_is_not_the_raw_target :
  exists st m,
    split (rstrip_eol ("GET //a//b HTTP/1.1" ++ crlf)) = ["GET"; "//a//b"; "HTTP/1.1"]
    /\ handle_one_request sample_server ("GET //a//b HTTP/1.1" ++ crlf)
         [("Host", "localhost:3000")] (rfile (get "/")) sample_env
       = Handled (Returned tt st)
    /\ reply_of st = Some (200, m)
    /\ jget "path" m = Some (JString "/a//b")
    /\ jget "path" m <> Some (JString "//a//b").
Proof.
  exists (answer_state sample_server
            (mkrequest GET "/a//b" "GET //a//b HTTP/1.1" [("Host", "localhost:3000")]
               (rfile (get "/"))) sample_env).
  exists (to_json (GET_response sample_server "/a//b" sample_now)).
  repeat (split; [vm_compute; reflexivity |]).
  vm_compute. discriminate.
Qed.

(** C5 (amended): whenever [do_GET] or [do_POST] runs, the request line
    is a method, a target and, but for an HTTP/0.9 GET, a version,
    separated by blanks; a GET is always answered; and the [path] field
    of every response is the target character for character, with no
    percent-decoding and no normalisation, except that the slashes a
    target starts with, when there are two or more, are reduced to
    one. *)
Theorem path_is_request_target
    (srv : HTTPServer) (raw_requestline : string) (hs : list (string * string))
    (body : stream) (e : env) (res : result unit) :
  handle_one_request srv raw_requestline hs body e = Handled res ->
  exists c target,
    (split (rstrip_eol raw_requestline) = [c; target]
     \/ exists version, split (rstrip_eol raw_requestline) = [c; target; version])
    /\ (c = "GET" \/ c = "POST")
    /\ (c = "GET" -> exists st, res = Returned tt st)
    /\ (forall st, res = Returned tt st ->
        exists m,
          body_of st = Some m
          /\ jget "path" m = Some (JString (single_slash target)))
    /\ (String.prefix "//" target = false -> single_slash target = target)
    /\ (String.prefix "//" target = true ->
        single_slash target = "/" ++ lstrip_char "/" target).
Proof.
  intro H.
  destruct (handle_one_request_handled _ _ _ _ _ _ H) as (c & p & v & m & Hp & Hm & ->).
  destruct (parse_request_accepted _ _ _ _ Hp) as (target & Hw & ->).
  pose proof (method_of_name c m Hm) as Hc.
  exists c, target. split; [| split; [| split; [| split; [| split]]]].
  - destruct Hw as [(Hw & _ & _) | Hw]; [left; exact Hw | right; eauto].
  - destruct m; auto.
  - intro G. rewrite handle_version_run.
    assert (m = GET) as -> by (destruct m; [reflexivity | congruence]).
    unfold answerable. cbn [command]. eauto.
  - intros st Hst. rewrite handle_version_run in Hst.
    destruct (answerable _); [| destruct (unanswered_result _ _ Hst)].
    injection Hst as <-. eexists. split; [apply body_of_wire |].
    unfold payload_of. cbn [command path]. destruct m; reflexivity.
  - unfold single_slash. intros ->. reflexivity.
  - unfold single_slash. intros ->. reflexivity.
Qed.

Lemma path_is_request_target_witness :
  exists c target,
    (split (rstrip_eol ("GET " ++ odd_target ++ " HTTP/1.1" ++ crlf)) = [c; target]
     \/ exists version,
          split (rstrip_eol ("GET " ++ odd_target ++ " HTTP/1.1" ++ crlf))
          = [c; target; version])
    /\ (c = "GET" \/ c = "POST")
    /\ (c = "GET" ->
        exists st, handle sample_server (get odd_target, sample_env) = Returned tt st)
    /\ (forall st,
          handle sample_server (get odd_target, sample_env) = Returned tt st ->
          exists m,
            body_of st = Some m
            /\ jget "path" m = Some (JString (single_slash target)))
    /\ (String.prefix "//" target = false -> single_slash target = target)
    /\ (String.prefix "//" target = true ->
        single_slash target = "/" ++ lstrip_char "/" target).
Proof.
  apply (path_is_request_target sample_server
           ("GET " ++ odd_target ++ " HTTP/1.1" ++ crlf)
           (headers (get odd_target)) (rfile (get odd_target)) sample_env
           (handle sample_server (get odd_target, sample_env))).
  reflexivity.
Defined.

Example odd_target_comes_back :
  split (rstrip_eol ("GET " ++ odd_target ++ " HTTP/1.1" ++ crlf))
  = ["GET"; odd_target; "HTTP/1.1"]
  /\ single_slash odd_target = odd_target
  /\ option_map (jget "path")
       (body_of (final (handle sample_server (get odd_target, sample_env))))
     = Some (Some (JString odd_target)).
Proof. repeat split; reflexivity. Qed.

(** A target cut by a blank, here the Latin-1 no-break space, does not
    reach a handler: the library answers 400. *)
Example blank_in_target :
  handle_one_request sample_server
    ("GET /a" ++ String "160"%char ("b HTTP/1.1" ++ crlf))
    [("Host", "localhost:3000")] (rfile (get "/")) sample_env
  = Refused 400.
Proof. reflexivity. Qed.

(** The [path] field of an answered request, seen from the handler: the
    path the library left on it, through [json.dumps], [encode] and back. *)
Lemma path_field (srv : HTTPServer) (r : request) (e : env) :
  answerable r = true ->
  exists st m,
    handle srv (r, e) = Returned tt st
    /\ reply_of st = Some (200, m)
    /\ jget "path" m = Some (JString (path r)).
Proof.
  intro A. answered A.
  unfold payload_of. destruct (command r); reflexivity.
Qed.

(** A GET request is always answered. *)
Lemma get_is_answerable (r : request) : command r = GET -> answerable r = true.
Proof. unfold answerable. intros ->. reflexivity. Qed.

(** C6: the JSON object of a response to GET has exactly the keys
    backend, port, path, method, timestamp, and no body_length; that of a
    response to POST has exactly backend, port, path, method,
    body_length, timestamp. *)
Theorem response_keys (srv : HTTPServer) (r : request) (e : env) :
  answerable r = true ->
  exists st m,
    handle srv (r, e) = Returned tt st
    /\ reply_of st = Some (200, m)
    /\ map fst m =
         match command r with
         | GET => ["backend"; "port"; "path"; "method"; "timestamp"]
         | POST => ["backend"; "port"; "path"; "method"; "body_length"; "timestamp"]
         end
    /\ NoDup (map fst m)
    /\ match command r with
       | GET => jget "body_length" m = None
       | POST => jget "body_length" m = Some (JInt (content_length_value r))
       end.
Proof.
  intro A. answered A.
  unfold payload_of. destruct (command r); cbn [to_json map fst GET_response POST_response];
    (split; [reflexivity |]); (split; [| reflexivity]);
    repeat (constructor; [cbn [In]; intuition discriminate |]); constructor.
Qed.

Lemma response_keys_witness :
  (exists st m,
     handle sample_server (get "/health", sample_env) = Returned tt st
     /\ reply_of st = Some (200, m)
     /\ map fst m = ["backend"; "port"; "path"; "method"; "timestamp"]
     /\ NoDup (map fst m)
     /\ jget "body_length" m = None)
  /\ (exists st m,
        handle sample_server (hello_post, sample_env) = Returned tt st
        /\ reply_of st = Some (200, m)
        /\ map fst m = ["backend"; "port"; "path"; "method"; "body_length"; "timestamp"]
        /\ NoDup (map fst m)
        /\ jget "body_length" m = Some (JInt 5)).
Proof.
  split.
  - apply (response_keys sample_server (get "/health") sample_env). reflexivity.
  - apply (response_keys sample_server hello_post sample_env). reflexivity.
Defined.



(** ** The command line *)

(** C8: run without a port argument, the program prints a usage message
    containing [Usage:] on standard output and exits with status 1; no
    server is started and no request is served. *)
Theorem usage_without_port
    (sys : os) (argv : list string) (conns : list (request * env)) :
  (length argv < 2)%nat ->
  printed (main sys argv conns)
  = [ print "Usage: python backend_server.py <port> [name]";
      print "Example: python backend_server.py 3000 backend-1" ]
  /\ contains "Usage:" (String.concat EmptyString (printed (main sys argv conns))) = true
  /\ exit (main sys argv conns) = Exited 1
  /\ started (main sys argv conns) = None
  /\ served (main sys argv conns) = [].
Proof.
  intro H. unfold main.
  destruct (length argv <? 2)%nat eqn:E;
    [| apply Nat.ltb_ge in E; lia].
  repeat split; reflexivity.
Qed.

Lemma usage_without_port_witness :
  printed (main sample_os ["backend_server.py"] sample_conns)
  = [ print "Usage: python backend_server.py <port> [name]";
      print "Example: python backend_server.py 3000 backend-1" ]
  /\ contains "Usage:"
       (String.concat EmptyString (printed (main sample_os ["backend_server.py"] sample_conns)))
     = true
  /\ exit (main sample_os ["backend_server.py"] sample_conns) = Exited 1
  /\ started (main sample_os ["backend_server.py"] sample_conns) = None
  /\ served (main sample_os ["backend_server.py"] sample_conns) = [].
Proof.
  apply (usage_without_port sample_os ["backend_server.py"] sample_conns).
  cbn [length]. lia.
Defined.

(** C9: run with a first argument that is no integer, the program ends
    in the uncaught [ValueError] of the conversion, with its traceback:
    the usage message is not printed, nothing else is, and no server is
    started. *)
Theorem non_numeric_port_raises
    (sys : os) (argv : list string) (conns : list (request * env)) :
  (2 <= length argv)%nat ->
  int_of_str (nth 1 argv EmptyString) = None ->
  exit (main sys argv conns) = Traceback ValueError
  /\ printed (main sys argv conns) = []
  /\ contains "Usage:" (String.concat EmptyString (printed (main sys argv conns))) = false
  /\ started (main sys argv conns) = None
  /\ served (main sys argv conns) = [].
Proof.
  intros H Hi. unfold main.
  destruct (length argv <? 2)%nat eqn:E;
    [apply Nat.ltb_lt in E; lia |].
  cbn [py_int]. rewrite Hi.
  repeat split; reflexivity.
Qed.

Lemma non_numeric_port_raises_witness :
  exit (main sample_os ["backend_server.py"; "abc"] sample_conns) = Traceback ValueError
  /\ printed (main sample_os ["backend_server.py"; "abc"] sample_conns) = []
  /\ contains "Usage:"
       (String.concat EmptyString
          (printed (main sample_os ["backend_server.py"; "abc"] sample_conns)))
     = false
  /\ started (main sample_os ["backend_server.py"; "abc"] sample_conns) = None
  /\ served (main sample_os ["backend_server.py"; "abc"] sample_conns) = [].
Proof.
  apply (non_numeric_port_raises sample_os ["backend_server.py"; "abc"] sample_conns);
    [cbn [length]; lia | reflexivity].
Defined.

(** ** A negative Content-Length *)

Lemma read_outcome_minus_one (s : stream) :
  read_outcome (-1) s = if closed s then Reads (String.length (incoming s)) else Waits.
Proof. reflexivity. Qed.

Lemma read_outcome_negative (n : Z) (s : stream) :
  n < -1 ->
  read_outcome n s = Refuses (if n <? min_index then OverflowError else ValueError).
Proof.
  intro H. unfold read_outcome.
  destruct (n <? min_index) eqn:E; [reflexivity |].
  apply Z.ltb_ge in E. settle. reflexivity.
Qed.

(** A size above what a [bytes] object can have, or above what the
    interpreter can allocate, makes the read raise as well. *)
Lemma read_outcome_no_room (n : Z) (s : stream) :
  room s < n ->
  read_outcome n s = Refuses (if max_bytes <? n then OverflowError else MemoryError).
Proof.
  intro H. pose proof (incoming_fits s) as F. unfold read_outcome.
  destruct (max_index <? n) eqn:E1.
  - apply Z.ltb_lt in E1. rewrite orb_true_r. settle. reflexivity.
  - apply Z.ltb_ge in E1. destruct (max_bytes <? n) eqn:E2.
    + apply Z.ltb_lt in E2. settle. reflexivity.
    + apply Z.ltb_ge in E2. settle. reflexivity.
Qed.

(** C10, as stated, fails: with [Content-Length: -5] the read of the
    body refuses the size; the handler raises [ValueError] and sends no
    response, so no [body_length] of -5 is reported. *)
Lemma negative_content_length_is_not_echoed :
  exists st,
    command negative_post = POST
    /\ content_length_of negative_post = inr (-5)
    /\ handle sample_server (negative_post, sample_env) = Raised ValueError st
    /\ wfile st = []
    /\ reply_of st = None.
Proof.
  exists (init_state negative_post).
  repeat (split; [vm_compute; reflexivity |]). vm_compute; reflexivity.
Qed.

(** C10 (amended): a Content-Length that parses as a negative integer is
    never taken for 0.  For -1 the read runs to the end of the stream
    and the response reports [body_length] -1 as it stands (the handler
    waits for as long as the client keeps the stream open); for any
    integer below -1 the read refuses the size, with [ValueError] down
    to -2^63 and with [OverflowError] below, where the size is no index
    any more, and no response is sent. *)
Theorem negative_content_length
    (srv : HTTPServer) (r : request) (e : env) (n : Z) :
  command r = POST ->
  content_length_of r = inr n ->
  n < 0 ->
  (n = -1 -> closed (rfile r) = true ->
   exists st m,
     handle srv (r, e) = Returned tt st
     /\ reply_of st = Some (200, m)
     /\ jget "body_length" m = Some (JInt (-1))
     /\ incoming (st_rfile st) = EmptyString)
  /\ (n = -1 -> closed (rfile r) = false ->
      handle srv (r, e) = Blocked (init_state r))
  /\ (n < -1 ->
      handle srv (r, e)
      = Raised (if n <? -9223372036854775808 then OverflowError else ValueError)
          (init_state r)
      /\ reply_of (init_state r) = None).
Proof.
  intros Hm Hc Hn. split; [| split].
  - intros -> Hcl.
    assert (answerable r = true) as A.
    { unfold answerable, read_completes. rewrite Hm, Hc, read_outcome_minus_one, Hcl.
      reflexivity. }
    exists (answer_state srv r e). eexists.
    split; [apply handle_answerable, A |].
    split; [apply reply_of_answer |].
    unfold answer_state, payload_of, content_length_value.
    rewrite Hm, Hc. split; [reflexivity |]. cbn [st_rfile].
    unfold after_read. rewrite read_outcome_minus_one, Hcl, incoming_advance.
    generalize (incoming (rfile r)). intro i. induction i; [reflexivity | exact IHi].
  - intros -> Hcl.
    rewrite handle_unanswerable.
    + unfold unanswered. rewrite Hc, read_outcome_minus_one, Hcl. reflexivity.
    + unfold answerable, read_completes. rewrite Hm, Hc, read_outcome_minus_one, Hcl.
      reflexivity.
  - intro Hlt. split; [| reflexivity].
    rewrite handle_unanswerable.
    + unfold unanswered. rewrite Hc, read_outcome_negative by exact Hlt. reflexivity.
    + unfold answerable, read_completes.
      rewrite Hm, Hc, read_outcome_negative by exact Hlt. reflexivity.
Qed.

Lemma negative_content_length_witness :
  (exists st m,
     handle sample_server (minus_one_post, sample_env) = Returned tt st
     /\ reply_of st = Some (200, m)
     /\ jget "body_length" m = Some (JInt (-1))
     /\ incoming (st_rfile st) = EmptyString)
  /\ (handle sample_server (negative_post, sample_env)
      = Raised ValueError (init_state negative_post)
      /\ reply_of (init_state negative_post) = None)
  /\ (handle sample_server (far_negative_post, sample_env)
      = Raised OverflowError (init_state far_negative_post)
      /\ reply_of (init_state far_negative_post) = None).
Proof.
  split; [| split].
  - apply (negative_content_length sample_server minus_one_post sample_env (-1));
      reflexivity.
  - apply (negative_content_length sample_server negative_post sample_env (-5));
      reflexivity.
  - apply (negative_content_length sample_server far_negative_post sample_env
             (-18446744073709551616)); reflexivity.
Defined.

(** A Content-Length beyond what the interpreter can allocate is not
    answered either: the read raises [MemoryError], or [OverflowError]
    when no [bytes] object can be that large, before anything is
    sent. *)
Lemma unallocatable_content_length_raises
    (srv : HTTPServer) (r : request) (e : env) (n : Z) :
  command r = POST ->
  content_length_of r = inr n ->
  room (rfile r) < n ->
  handle srv (r, e)
  = Raised (if max_bytes <? n then OverflowError else MemoryError) (init_state r)
  /\ reply_of (init_state r) = None.
Proof.
  intros Hm Hc Hn. split; [| reflexivity].
  rewrite handle_unanswerable.
  - unfold unanswered. rewrite Hc, read_outcome_no_room by exact Hn. reflexivity.
  - unfold answerable, read_completes.
    rewrite Hm, Hc, read_outcome_no_room by exact Hn. reflexivity.
Qed.

Example unallocatable_samples :
  handle sample_server (huge_post, sample_env)
  = Raised OverflowError (init_state huge_post)
  /\ handle sample_server (roomy_post, sample_env)
     = Raised MemoryError (init_state roomy_post).
Proof. split; reflexivity. Qed.

(** * Further properties of the handlers, the server and the command line *)

(** ** One request *)

Lemma handle_final (srv : HTTPServer) (r : request) (e : env) :
  final (handle srv (r, e))
  = if answerable r then answer_state srv r e else init_state r.
Proof.
  rewrite handle_run. destruct (answerable r); [reflexivity |].
  apply unanswered_final.
Qed.

Lemma handle_version_final (version : string) (srv : HTTPServer) (r : request) (e : env) :
  final (handle_version version srv (r, e))
  = if answerable r then answer_state_of version srv r e else init_state r.
Proof.
  rewrite handle_version_run. destruct (answerable r); [reflexivity |].
  apply unanswered_final.
Qed.

(** X1: [log_message] writes one line per answered request on standard
    output: the backend's name between brackets, then the request line
    between quotes, the status 200 and a dash, then a newline.  A request
    that is not answered leaves no line. *)
Theorem one_log_line_per_response (srv : HTTPServer) (r : request) (e : env) :
  stdout (final (handle srv (r, e)))
  = if answerable r
    then ["[" ++ backend_name srv ++ "] " ++ quoted (requestline r) ++ " 200 -" ++ nl]
    else [].
Proof.
  rewrite handle_final. destruct (answerable r); [| reflexivity].
  unfold answer_state, access_log, quoted. cbn [stdout append].
  do 3 f_equal. rewrite !append_assoc. reflexivity.
Qed.

(** X2: a handler never leaves part of a response on the connection,
    whatever version the request line gave.  What it has written when
    it ends is nothing at all for a request it does not answer; else,
    for a request line with a version, the status line 200, the Server,
    Date and Content-Type headers, the end of the headers and the whole
    JSON body, in this order; and for a request line without a version
    (HTTP/0.9) the whole JSON body alone, with no status line and no
    header.  Nothing stays behind in the header buffer. *)
Theorem response_is_whole_or_absent
    (version : string) (srv : HTTPServer) (r : request) (e : env) :
  wfile (final (handle_version version srv (r, e)))
  = (if answerable r
     then
       if String.eqb version "HTTP/0.9"
       then [ Data (encode (json_dumps (payload_of srv r e (content_length_value r)))) ]
       else [ StatusLine 200 "OK";
              HeaderLine "Server" (version_string e);
              HeaderLine "Date" (date_time_string e);
              HeaderLine "Content-Type" "application/json";
              EndOfHeaders;
              Data (encode (json_dumps (payload_of srv r e (content_length_value r)))) ]
     else [])
  /\ headers_buffer (final (handle_version version srv (r, e))) = []
  /\ (String.eqb version "HTTP/0.9" = false ->
      handle_version version srv (r, e) = handle srv (r, e)).
Proof.
  rewrite handle_version_final. split; [| split].
  - destruct (answerable r); [| reflexivity].
    unfold answer_state_of, wire_of. cbn [wfile].
    destruct (String.eqb version "HTTP/0.9"); reflexivity.
  - destruct (answerable r); reflexivity.
  - apply handle_version_named.
Qed.

Example simple_request_on_the_wire :
  handle_one_request sample_server ("GET /health" ++ crlf)
    [("Host", "localhost:3000")] (rfile (get "/health")) sample_env
  = Handled (handle_version "HTTP/0.9" sample_server
               (mkrequest GET "/health" "GET /health" [("Host", "localhost:3000")]
                  (rfile (get "/health")), sample_env))
  /\ wfile (final (handle_version "HTTP/0.9" sample_server
                     (mkrequest GET "/health" "GET /health" [("Host", "localhost:3000")]
                        (rfile (get "/health")), sample_env)))
     = [ Data ("{" ++ quoted "backend" ++ ": " ++ quoted "backend-1" ++ ", "
                 ++ quoted "port" ++ ": 3000, "
                 ++ quoted "path" ++ ": " ++ quoted "/health" ++ ", "
                 ++ quoted "method" ++ ": " ++ quoted "GET" ++ ", "
                 ++ quoted "timestamp" ++ ": 1762214400.25}") ].
Proof. split; reflexivity. Qed.

(** X3: [do_GET] looks neither at the headers nor at the body.  A GET
    with any headers and any body stream gets the response and the log
    line of the same GET without them, and its stream is left as it
    was. *)
Theorem get_ignores_headers_and_body
    (srv : HTTPServer) (r : request) (e : env)
    (hs : list (string * string)) (body : stream) :
  command r = GET ->
  wfile (final (handle srv (with_body (with_headers r hs) body, e)))
  = wfile (final (handle srv (r, e)))
  /\ stdout (final (handle srv (with_body (with_headers r hs) body, e)))
     = stdout (final (handle srv (r, e)))
  /\ st_rfile (final (handle srv (with_body (with_headers r hs) body, e))) = body.
Proof.
  intro Hm. rewrite !handle_final.
  unfold answerable, with_body, with_headers. cbn [command]. rewrite Hm.
  unfold answer_state, payload_of, access_log.
  cbn [command path requestline rfile wfile stdout st_rfile]. rewrite Hm.
  repeat split; reflexivity.
Qed.

Lemma get_ignores_headers_and_body_witness :
  wfile (final (handle sample_server
                  (with_body (with_headers (get "/health") (headers malformed_post))
                     (rfile short_post), sample_env)))
  = wfile (final (handle sample_server (get "/health", sample_env)))
  /\ stdout (final (handle sample_server
                      (with_body (with_headers (get "/health") (headers malformed_post))
                         (rfile short_post), sample_env)))
     = stdout (final (handle sample_server (get "/health", sample_env)))
  /\ st_rfile (final (handle sample_server
                        (with_body (with_headers (get "/health") (headers malformed_post))
                           (rfile short_post), sample_env)))
     = rfile short_post.
Proof.
  apply (get_ignores_headers_and_body sample_server (get "/health") sample_env
           (headers malformed_post) (rfile short_post)).
  reflexivity.
Defined.

(** X4: [do_POST] reads the body and drops it.  Two answered POST
    requests that differ only in the bytes of their bodies get the same
    response and the same log line. *)
Theorem post_ignores_body_content
    (srv : HTTPServer) (r : request) (e : env) (body : stream) :
  command r = POST ->
  answerable r = true ->
  answerable (with_body r body) = true ->
  wfile (final (handle srv (with_body r body, e)))
  = wfile (final (handle srv (r, e)))
  /\ stdout (final (handle srv (with_body r body, e)))
     = stdout (final (handle srv (r, e))).
Proof.
  intros Hm A A'. rewrite !handle_final, A, A'.
  unfold answer_state, payload_of, access_log, content_length_value,
    content_length_of, with_body.
  cbn [command path requestline headers wfile stdout].
  split; reflexivity.
Qed.

Lemma post_ignores_body_content_witness :
  wfile (final (handle sample_server (with_body hello_post (mkstream "HELLO!!" 0 true sample_room eq_refl), sample_env)))
  = wfile (final (handle sample_server (hello_post, sample_env)))
  /\ stdout (final (handle sample_server
                      (with_body hello_post (mkstream "HELLO!!" 0 true sample_room eq_refl), sample_env)))
     = stdout (final (handle sample_server (hello_post, sample_env))).
Proof.
  apply (post_ignores_body_content sample_server hello_post sample_env
           (mkstream "HELLO!!" 0 true sample_room eq_refl)); reflexivity.
Defined.

Lemma headers_get_first (pre rest : list (string * string)) (k v name : string)
    (failobj : str_or_int) :
  has_header pre name = false ->
  lower k = lower name ->
  headers_get (pre ++ (k, v) :: rest) name failobj = Str v.
Proof.
  intros Hp Hk. induction pre as [|[k' v'] pre IH].
  - simpl. rewrite Hk, String.eqb_refl. reflexivity.
  - simpl in Hp. apply orb_false_iff in Hp as [Hk' Hp].
    simpl. rewrite Hk'. exact (IH Hp).
Qed.

(** X5: of the headers of a POST, the first one named Content-Length,
    in whatever case its name is written, decides alone.  If its value
    is no integer the handler raises, whatever a later Content-Length
    says; if it is the integer [n] and the read completes, the response
    reports [body_length] [n]. *)
Theorem first_content_length_decides
    (srv : HTTPServer) (r : request) (e : env)
    (pre rest : list (string * string)) (k v : string) :
  command r = POST ->
  headers r = (pre ++ (k, v) :: rest)%list ->
  has_header pre "Content-Length" = false ->
  lower k = "content-length" ->
  (int_of_str v = None -> handle srv (r, e) = Raised ValueError (init_state r))
  /\ (forall n, int_of_str v = Some n -> read_completes n (rfile r) = true ->
      exists st m,
        handle srv (r, e) = Returned tt st
        /\ reply_of st = Some (200, m)
        /\ jget "body_length" m = Some (JInt n)).
Proof.
  intros Hm Hh Hp Hk.
  assert (content_length_of r = py_int (Str v)) as Hc.
  { unfold content_length_of. rewrite Hh.
    rewrite (headers_get_first pre rest k v "Content-Length" (Int 0) Hp Hk).
    reflexivity. }
  cbn [py_int] in Hc. split.
  - intro Hi. rewrite Hi in Hc.
    rewrite handle_unanswerable
      by (unfold answerable; rewrite Hm, Hc; reflexivity).
    unfold unanswered. rewrite Hc. reflexivity.
  - intros n Hi Hr. rewrite Hi in Hc.
    assert (answerable r = true) as A
      by (unfold answerable; rewrite Hm, Hc; exact Hr).
    exists (answer_state srv r e).
    exists (to_json (payload_of srv r e (content_length_value r))).
    split; [apply handle_answerable, A |].
    split; [apply reply_of_answer |].
    unfold payload_of, content_length_value. rewrite Hm, Hc. reflexivity.
Qed.

Lemma first_content_length_decides_witness :
  exists st m,
    handle sample_server (twice_post, sample_env) = Returned tt st
    /\ reply_of st = Some (200, m)
    /\ jget "body_length" m = Some (JInt 5).
Proof.
  apply (first_content_length_decides sample_server twice_post sample_env
           [("Host", "localhost:3000")] [("Content-Length", "7")]
           "CONTENT-LENGTH" "5" eq_refl eq_refl eq_refl eq_refl);
    reflexivity.
Defined.

(** ** The bytes of the body *)

Lemma forallb_string_append (p : ascii -> bool) (a b : string) :
  forallb_string p (a ++ b) = forallb_string p a && forallb_string p b.
Proof.
  induction a; simpl; [reflexivity | rewrite IHa; apply andb_assoc].
Qed.

Lemma escape_char_ascii (c : ascii) : forallb_string is_ascii (escape_char c) = true.
Proof. destruct c as [[] [] [] [] [] [] [] []]; reflexivity. Qed.

Lemma escape_ascii (s : string) : forallb_string is_ascii (escape s) = true.
Proof.
  induction s as [|c s IH]; [reflexivity |].
  cbn [escape]. rewrite forallb_string_append, escape_char_ascii, IH. reflexivity.
Qed.

Lemma basestring_ascii (s : string) :
  forallb_string is_ascii (encode_basestring_ascii s) = true.
Proof.
  unfold encode_basestring_ascii. cbn [forallb_string].
  rewrite forallb_string_append, escape_ascii. reflexivity.
Qed.

Lemma number_char_ascii (c : ascii) : is_number_char c = true -> is_ascii c = true.
Proof.
  destruct c as [[] [] [] [] [] [] [] []]; try reflexivity; discriminate.
Qed.

Lemma dump_item_ascii (kv : string * pyobj) :
  forallb_string is_ascii (dump_item kv) = true.
Proof.
  destruct kv as [k v]. unfold dump_item. cbn [fst snd].
  rewrite !forallb_string_append, basestring_ascii. cbn [andb forallb_string].
  destruct v as [s|z|f]; cbn [dump_value].
  - apply basestring_ascii.
  - apply (forallb_string_impl is_number_char); [apply number_char_ascii |].
    apply number_chars_py_str.
  - apply (forallb_string_impl is_number_char); [apply number_char_ascii |].
    apply float_repr_chars.
Qed.

Lemma dump_items_ascii (d : dict) : forallb_string is_ascii (dump_items d) = true.
Proof.
  induction d as [|kv d IH]; [reflexivity |].
  destruct d as [|kv' d']; [apply dump_item_ascii |].
  rewrite dump_items_cons, !forallb_string_append, dump_item_ascii, IH.
  reflexivity.
Qed.

Lemma json_dumps_ascii (d : dict) : forallb_string is_ascii (json_dumps d) = true.
Proof.
  unfold json_dumps. cbn [append forallb_string].
  rewrite forallb_string_append, dump_items_ascii. reflexivity.
Qed.

Lemma encode_ascii (s : string) : forallb_string is_ascii s = true -> encode s = s.
Proof.
  induction s as [|c s IH]; [reflexivity |].
  cbn [forallb_string encode]. intro H. apply andb_true_iff in H as [Hc Hs].
  rewrite (IH Hs). unfold encode_char. unfold is_ascii in Hc. rewrite Hc.
  reflexivity.
Qed.

(** X6: the body of a response is plain ASCII, whatever characters the
    path and the backend's name hold: every byte a handler writes as
    body is below 128, and the bytes of an answered request are the JSON
    text itself, which [encode] leaves as it is. *)
Theorem body_is_ascii (srv : HTTPServer) (r : request) (e : env) :
  forallb_string is_ascii (body_bytes (wfile (final (handle srv (r, e))))) = true
  /\ body_bytes (wfile (final (handle srv (r, e))))
     = if answerable r
       then json_dumps (payload_of srv r e (content_length_value r))
       else EmptyString.
Proof.
  rewrite handle_final. destruct (answerable r); [| split; reflexivity].
  unfold answer_state, response_wire. cbn [wfile body_bytes].
  rewrite append_nil_r, (encode_ascii _ (json_dumps_ascii _)).
  split; [apply json_dumps_ascii | reflexivity].
Qed.

(** X7: the [method] field of a response names the handler that wrote
    it, GET or POST, and its [timestamp] field is the reading of the
    clock that handler took. *)
Theorem method_and_timestamp (srv : HTTPServer) (r : request) (e : env) :
  answerable r = true ->
  exists st m,
    handle srv (r, e) = Returned tt st
    /\ reply_of st = Some (200, m)
    /\ jget "method" m
       = Some (JString match command r with GET => "GET" | POST => "POST" end)
    /\ jget "timestamp" m = Some (JFloat (float_repr (time_time e))).
Proof.
  intro A. exists (answer_state srv r e).
  exists (to_json (payload_of srv r e (content_length_value r))).
  split; [apply handle_answerable, A |].
  split; [apply reply_of_answer |].
  unfold payload_of. destruct (command r); split; reflexivity.
Qed.

Lemma method_and_timestamp_witness :
  exists st m,
    handle sample_server (hello_post, sample_env) = Returned tt st
    /\ reply_of st = Some (200, m)
    /\ jget "method" m = Some (JString "POST")
    /\ jget "timestamp" m = Some (JFloat "1762214400.25").
Proof.
  apply (method_and_timestamp sample_server hello_post sample_env). reflexivity.
Defined.

(** ** The accept loop *)










(** ** Starting the server *)

Lemma served_fields (srv : HTTPServer) (conns : list (request * env))
    (r : result unit) (st : hstate) :
  In r (serve_forever srv conns) ->
  r = Returned tt st ->
  exists m,
    reply_of st = Some (200, m)
    /\ jget "backend" m = Some (JString (backend_name srv))
    /\ jget "port" m = Some (JInt (server_port srv)).
Proof.
  intros Hin ->.
  destruct (serve_forever_In _ _ _ Hin) as ([rq e] & _ & Hh).
  symmetry in Hh. apply handle_returned in Hh as [_ ->].
  eexists. split; [apply reply_of_answer |]. apply identity_fields.
Qed.

Lemma run_backend_bound (sys : os) (port : Z) (name : string)
    (conns : list (request * env)) (bound : string * Z) :
  bind_socket sys ("localhost", port) = inr bound ->
  started (run_backend sys port name conns) = Some (mkserver bound (snd bound) name)
  /\ served (run_backend sys port name conns)
     = serve_forever (mkserver bound (snd bound) name) conns
  /\ exists rest, printed (run_backend sys port name conns) = (banner name port ++ rest)%list.
Proof.
  intro Hb. unfold run_backend. rewrite Hb. cbn [started served printed].
  repeat split; eauto.
Qed.

(** X10: a port the socket cannot be bound to ends the program before
    the banner.  When the port argument is an integer outside 0..65535,
    or a port the system refuses, the program dies of the uncaught
    [OverflowError], respectively [OSError], of the bind: nothing is
    printed, not even the line that announces the start, and nothing is
    served. *)
Theorem unbindable_port_ends_before_banner
    (sys : os) (argv : list string) (conns : list (request * env)) (port : Z) :
  (2 <= length argv)%nat ->
  int_of_str (nth 1 argv EmptyString) = Some port ->
  unbindable sys port = true ->
  printed (main sys argv conns) = []
  /\ served (main sys argv conns) = []
  /\ started (main sys argv conns) = None
  /\ exit (main sys argv conns)
     = Traceback (if (port <? 0) || (65535 <? port) then OverflowError else OSError).
Proof.
  intros Hl Hi Hu. unfold main.
  destruct (length argv <? 2)%nat eqn:E; [apply Nat.ltb_lt in E; lia |].
  cbn [py_int]. rewrite Hi. unfold run_backend, bind_socket.
  unfold unbindable in Hu.
  destruct ((port <? 0) || (65535 <? port)) eqn:Er;
    [repeat split; reflexivity |].
  cbn [orb] in Hu. apply andb_true_iff in Hu as [H0 Hn].
  apply negb_true_iff in H0. rewrite H0, Hn. repeat split; reflexivity.
Qed.

Lemma unbindable_port_ends_before_banner_witness :
  (printed (main sample_os ["backend_server.py"; "80"] sample_conns) = []
   /\ served (main sample_os ["backend_server.py"; "80"] sample_conns) = []
   /\ started (main sample_os ["backend_server.py"; "80"] sample_conns) = None
   /\ exit (main sample_os ["backend_server.py"; "80"] sample_conns) = Traceback OSError)
  /\ (printed (main sample_os ["backend_server.py"; "70000"; "far"] sample_conns) = []
      /\ served (main sample_os ["backend_server.py"; "70000"; "far"] sample_conns) = []
      /\ started (main sample_os ["backend_server.py"; "70000"; "far"] sample_conns) = None
      /\ exit (main sample_os ["backend_server.py"; "70000"; "far"] sample_conns)
         = Traceback OverflowError).
Proof.
  split.
  - apply (unbindable_port_ends_before_banner sample_os
             ["backend_server.py"; "80"] sample_conns 80);
      [cbn [length]; lia | reflexivity | reflexivity].
  - apply (unbindable_port_ends_before_banner sample_os
             ["backend_server.py"; "70000"; "far"] sample_conns 70000);
      [cbn [length]; lia | reflexivity | reflexivity].
Defined.

(** A port argument of more than 4300 digits does not reach the bind:
    the conversion of line 77 raises [ValueError]. *)
Example long_port_argument :
  int_of_str (repeat_char "7" 4301) = None
  /\ exit (main sample_os ["backend_server.py"; repeat_char "7" 4301] sample_conns)
     = Traceback ValueError
  /\ printed (main sample_os ["backend_server.py"; repeat_char "7" 4301] sample_conns)
     = [].
Proof. vm_compute. repeat split; reflexivity. Qed.

(** X11: started on port 0, the server is bound to the port the system
    picks, and that port, not 0, is what every response carries as
    [port]; the banner, printed from the argument, still says port 0. *)
Theorem port_zero_reports_the_bound_port
    (sys : os) (N : string) (conns : list (request * env)) :
  started (run_backend sys 0 N conns)
  = Some (mkserver ("localhost", ephemeral_port sys) (ephemeral_port sys) N)
  /\ (exists rest, printed (run_backend sys 0 N conns) = (banner N 0 ++ rest)%list)
  /\ (forall r st,
        In r (served (run_backend sys 0 N conns)) ->
        r = Returned tt st ->
        exists m,
          reply_of st = Some (200, m)
          /\ jget "port" m = Some (JInt (ephemeral_port sys))).
Proof.
  destruct (run_backend_bound sys 0 N conns ("localhost", ephemeral_port sys) eq_refl)
    as (Hs & Hv & Hp).
  split; [exact Hs |]. split; [exact Hp |].
  intros r st Hin Hr. rewrite Hv in Hin.
  destruct (served_fields _ _ _ _ Hin Hr) as (m & Hm & _ & Hport). eauto.
Qed.

(** X12: how the backend gets its name.  With a port argument alone the
    name is [backend-] followed by the port in decimal, the integer the
    argument parses to and not the argument's text; with a further
    argument that argument is the name, as it stands, and whatever
    follows it is ignored.  On a valid port every response carries the
    name so chosen. *)
Theorem name_of_the_backend
    (sys : os) (prog a : string) (P : Z) (conns : list (request * env)) :
  int_of_str a = Some P ->
  main sys [prog; a] conns = run_backend sys P ("backend-" ++ py_str P) conns
  /\ (forall N more, main sys (prog :: a :: N :: more) conns = run_backend sys P N conns)
  /\ (1 <= P <= 65535 -> unavailable sys P = false ->
      forall r st,
        In r (served (main sys [prog; a] conns)) ->
        r = Returned tt st ->
        exists m,
          reply_of st = Some (200, m)
          /\ jget "backend" m = Some (JString ("backend-" ++ py_str P))).
Proof.
  intro Hi.
  assert (main sys [prog; a] conns
          = run_backend sys P ("backend-" ++ py_str P) conns) as E
    by (unfold main; cbn [length Nat.ltb Nat.leb nth py_int]; rewrite Hi; reflexivity).
  split; [exact E |]. split.
  - intros N more. unfold main. cbn [length Nat.ltb Nat.leb nth py_int].
    rewrite Hi. reflexivity.
  - intros HP Hu r st Hin Hr. rewrite E in Hin.
    destruct (run_backend_bound sys P ("backend-" ++ py_str P) conns
                ("localhost", P) (bind_socket_valid sys "localhost" P HP Hu))
      as (_ & Hv & _).
    rewrite Hv in Hin.
    destruct (served_fields _ _ _ _ Hin Hr) as (m & Hm & Hname & _). eauto.
Qed.

Lemma name_of_the_backend_witness :
  main sample_os ["backend_server.py"; " +3_000 "] sample_conns
  = run_backend sample_os 3000 "backend-3000" sample_conns
  /\ (forall N more,
        main sample_os ("backend_server.py" :: " +3_000 " :: N :: more) sample_conns
        = run_backend sample_os 3000 N sample_conns)
  /\ (1 <= 3000 <= 65535 -> unavailable sample_os 3000 = false ->
      forall r st,
        In r (served (main sample_os ["backend_server.py"; " +3_000 "] sample_conns)) ->
        r = Returned tt st ->
        exists m,
          reply_of st = Some (200, m)
          /\ jget "backend" m = Some (JString "backend-3000")).
Proof.
  apply (name_of_the_backend sample_os "backend_server.py" " +3_000 " 3000 sample_conns).
  reflexivity.
Defined.

(** ** The body read *)


